(** * Nigerian Maize Yield Prediction API: the request pipeline of [API/main.py]

    A shallow embedding of the FastAPI application of [API/main.py]: the
    pydantic request model with its three field validators, the [/health],
    [/predict] and [/predict/batch] handlers, and the properties of the
    pipeline that the specification states.

    Python values are modelled as the interpreter has them: [str] as
    [string], [int] as [Z], [float] as the kernel's binary64 [float], a
    one-row [DataFrame] as the ordered list of its columns.  The handlers run
    in a small monad that records what they print and which library objects
    they call, and that carries a raised exception. *)

From Stdlib Require Import ZArith NArith Lia Bool List String Ascii.
From Stdlib Require Import Floats DecimalString Permutation Sorted.
Import ListNotations.

#[local] Set Warnings "-inexact-float".

Local Open Scope Z_scope.
Local Open Scope string_scope.

(* ===================================================================== *)
(** * Python values *)
(* ===================================================================== *)

Module Py.

(** ** Strings *)

(** [str(n)] for an [int]. *)
Definition str_of_int (n : Z) : string :=
  NilZero.string_of_int (Z.to_int n).

(** [sep.join(parts)]. *)
Definition join (sep : string) (parts : list string) : string :=
  String.concat sep parts.

(** [v in xs] for a list of strings. *)
Definition str_in (v : string) (xs : list string) : bool :=
  existsb (String.eqb v) xs.

(** [xs[:n]]. *)
Definition slice_to {A : Type} (n : nat) (xs : list A) : list A :=
  firstn n xs.

(** [len(xs)]. *)
Definition len {A : Type} (xs : list A) : Z :=
  Z.of_nat (List.length xs).

(** One character of [str.lower()].  A [string] holds the UTF-8 bytes of
    the Python string; the letters [A]..[Z] go to [a]..[z] and every other
    byte is kept.  Outside ASCII, [str.lower()] does change characters, but
    it sends none of them to a letter of ["wet"] or ["dry"], so
    [validate_season] below decides every input as the interpreter does. *)
Definition lower_ascii (c : ascii) : ascii :=
  let n := nat_of_ascii c in
  if ((65 <=? n) && (n <=? 90))%nat then ascii_of_nat (n + 32) else c.

Fixpoint lower (s : string) : string :=
  match s with
  | EmptyString => EmptyString
  | String c rest => String (lower_ascii c) (lower rest)
  end.

(** [sorted(xs)] for a list of strings.  Strings compare as their code
    points do, which is the order of their UTF-8 bytes; the order is total,
    so the sorted list does not depend on the sorting algorithm. *)
Fixpoint insort (x : string) (xs : list string) : list string :=
  match xs with
  | [] => [x]
  | y :: rest =>
      if String.leb x y then x :: y :: rest else y :: insort x rest
  end.

Definition sorted (xs : list string) : list string :=
  fold_right insort [] xs.

(** ** Floats *)

(** [float(n)] for an [int] that a [float] can hold: the nearest binary64
    value, as [float * int] computes it before multiplying. *)
Definition float_of_int (n : Z) : float :=
  SF2Prim (binary_normalize prec emax n 0 false).

(** [a / b] rounded to the nearest integer, ties to the even one ([0 < b]). *)
Definition div_half_even (a b : Z) : Z :=
  let q := a / b in
  match 2 * (a mod b) ?= b with
  | Lt => q
  | Gt => q + 1
  | Eq => if Z.even q then q else q + 1
  end.

(** [round(x, ndigits)] for a [float] and [0 <= ndigits]: the decimal
    expansion of the exact value of [x], correctly rounded (ties to even) at
    [ndigits] places, read back as the nearest [float]; infinities, NaN and
    zeros round to themselves and the sign is kept. *)
Definition round (x : float) (ndigits : N) : float :=
  match Prim2SF x with
  | S754_finite s m e =>
      let scale := 10 ^ Z.of_N ndigits in
      let n := if (0 <=? e)%Z then Zpos m * 2 ^ e * scale
               else div_half_even (Zpos m * scale) (2 ^ (- e)) in
      match n, scale with
      | Zpos n', Zpos d =>
          SF2Prim (SFdiv prec emax (S754_finite s n' 0) (S754_finite false d 0))
      | _, _ => SF2Prim (S754_zero s)
      end
  | _ => x
  end.

(** ** Exceptions *)

(** A raised exception: an [HTTPException] with its status code and detail,
    or any other exception with its type name and message. *)
Inductive exn : Type :=
| Exception (type_name : string) (message : string)
| HTTPException (status_code : Z) (detail : string).

(** [str(e)].  Starlette's [HTTPException.__str__] gives
    ["<status_code>: <detail>"]. *)
Definition str_of_exn (e : exn) : string :=
  match e with
  | Exception _ message => message
  | HTTPException status_code detail =>
      str_of_int status_code ++ ": " ++ detail
  end.

End Py.

(* ===================================================================== *)
(** * The loaded artifacts *)
(* ===================================================================== *)

(** A cell of the one-row frame handed to the model: the integer codes, the
    wet flag and the year are integers, the area and the interaction term are
    floats. *)
Inductive cell : Type :=
| Int (n : Z)
| Float (x : float).

(** A one-row [pandas.DataFrame]: its columns in order, each with its value. *)
Definition DataFrame : Type := list (string * cell).

(** A fitted [sklearn.preprocessing.LabelEncoder]: the labels it knows, in
    the order of their codes. *)
Record LabelEncoder : Type := {
  classes_ : list string
}.

(** The failures of library calls that the handlers can meet.  The libraries
    choose the exception and its text; the handlers only catch it and apply
    [str] to it. *)
Inductive library_failure : Type :=
| UnseenLabel (label : string)           (* LabelEncoder.transform *)
| MissingColumns (labels : list string)  (* DataFrame.__getitem__ *)
| NoneHasNoPredict.                      (* attribute lookup on None *)

(** The module-level state after import: what [joblib.load] returned for
    [best_model.pkl], [le_state.pkl], [le_grade.pkl] and
    [feature_names.pkl].  The model is opaque: [model.predict] on a frame
    returns its first prediction or raises.  ([scaler.pkl] is loaded too and
    never used.) *)
Record Artifacts : Type := {
  model : option (DataFrame -> Py.exn + float);
  le_state : LabelEncoder;
  le_grade : LabelEncoder;
  feature_names : list string;
  raised_by : library_failure -> Py.exn
}.

(** [VALID_STATES = le_state.classes_.tolist()] *)
Definition VALID_STATES (env : Artifacts) : list string :=
  classes_ (le_state env).

(** [VALID_GRADES = le_grade.classes_.tolist()] *)
Definition VALID_GRADES (env : Artifacts) : list string :=
  classes_ (le_grade env).

(* ===================================================================== *)
(** * The request model *)
(* ===================================================================== *)

(** The JSON body of a request, each field already of its declared type. *)
Record RequestBody : Type := {
  body_state : string;
  body_season : string;
  body_year : Z;
  body_area_ha : float;
  body_quality_grade : string
}.

(** A validated [YieldPredictionRequest]. *)
Record YieldPredictionRequest : Type := {
  state : string;
  season : string;
  year : Z;
  area_ha : float;
  quality_grade : string
}.

(** A field validator returns the value to store ([inr]) or raises
    [ValueError] with a message ([inl]). *)
Definition validated (A : Type) : Type := (string + A)%type.

(** [validate_season]: lower-case the value, accept ['wet'] and ['dry']. *)
Definition validate_season (v : string) : validated string :=
  let v_lower := Py.lower v in
  if negb (Py.str_in v_lower ["wet"; "dry"])
  then inl "Season must be either 'wet' or 'dry'"
  else inr v_lower.

(** The message of [validate_state]. *)
Definition state_message (env : Artifacts) (v : string) : string :=
  "State '" ++ v ++ "' not recognized. Available states: "
  ++ Py.join ", " (Py.slice_to 10 (VALID_STATES env))
  ++ "... (and " ++ Py.str_of_int (Py.len (VALID_STATES env) - 10) ++ " more)".

(** [validate_state]: the value must be one of [VALID_STATES]. *)
Definition validate_state (env : Artifacts) (v : string) : validated string :=
  if negb (Py.str_in v (VALID_STATES env))
  then inl (state_message env v)
  else inr v.

(** The message of [validate_grade]. *)
Definition grade_message (env : Artifacts) (v : string) : string :=
  "Quality grade '" ++ v ++ "' not recognized. Available grades: "
  ++ Py.join ", " (VALID_GRADES env).

(** [validate_grade]: the value must be one of [VALID_GRADES]. *)
Definition validate_grade (env : Artifacts) (v : string) : validated string :=
  if negb (Py.str_in v (VALID_GRADES env))
  then inl (grade_message env v)
  else inr v.

(** ** Validation as pydantic runs it *)

(** Why a field was refused: a validator raised [ValueError], or a bound of
    [Field(ge=, le=, gt=)] does not hold. *)
Inductive error_type : Type :=
| value_error (msg : string)
| greater_than_equal (ge : Z)
| less_than_equal (le : Z)
| greater_than (gt : float)
| less_than_equal_float (le : float).

(** One step of the location of an error in the body. *)
Inductive loc_item : Type :=
| Key (name : string)
| Index (i : nat).

(** An error of the validation: where and why.  (The framework's answer
    also repeats the refused input next to each error; that part of the body
    is not modelled.) *)
Record ErrorDetail : Type := {
  loc : list loc_item;
  type_ : error_type
}.

(** [year: int = Field(ge=2000, le=2030)] *)
Definition check_year (v : Z) : error_type + Z :=
  if negb (v <=? 2030)%Z then inl (less_than_equal 2030)
  else if negb (2000 <=? v)%Z then inl (greater_than_equal 2000)
  else inr v.

(** [area_ha: float = Field(gt=0.0, le=1000.0)]; a NaN satisfies no bound. *)
Definition check_area_ha (v : float) : error_type + float :=
  if negb (v <=? 1000)%float then inl (less_than_equal_float 1000)
  else if negb (0 <? v)%float then inl (greater_than 0)
  else inr v.

Definition of_validator {A : Type} (r : validated A) : error_type + A :=
  match r with
  | inl msg => inl (value_error msg)
  | inr v => inr v
  end.

Definition errors_at {A : Type} (field : string) (r : error_type + A)
  : list ErrorDetail :=
  match r with
  | inl e => [ {| loc := [Key field]; type_ := e |} ]
  | inr _ => []
  end.

(** Building a [YieldPredictionRequest] from a body: every field is checked,
    in the order of declaration, and the errors of all fields are reported
    together; the request exists only when there is none. *)
Definition validate (env : Artifacts) (body : RequestBody)
  : list ErrorDetail + YieldPredictionRequest :=
  let r_state := of_validator (validate_state env (body_state body)) in
  let r_season := of_validator (validate_season (body_season body)) in
  let r_year := check_year (body_year body) in
  let r_area_ha := check_area_ha (body_area_ha body) in
  let r_grade := of_validator (validate_grade env (body_quality_grade body)) in
  match r_state, r_season, r_year, r_area_ha, r_grade with
  | inr v_state, inr v_season, inr v_year, inr v_area_ha, inr v_grade =>
      inr {| state := v_state; season := v_season; year := v_year;
             area_ha := v_area_ha; quality_grade := v_grade |}
  | _, _, _, _, _ =>
      inl (errors_at "state" r_state ++ errors_at "season" r_season
           ++ errors_at "year" r_year ++ errors_at "area_ha" r_area_ha
           ++ errors_at "quality_grade" r_grade)%list
  end.

(* ===================================================================== *)
(** * Handlers and their effects *)
(* ===================================================================== *)

Inductive encoder : Type := StateEncoder | GradeEncoder.

(** What a [print] statement of the handlers writes to the server's output. *)
Inductive output : Type :=
| StateEncoded (label : string) (code : Z)
| SeasonEncoded (label : string) (flag : Z)
| GradeEncoded (label : string) (code : Z)
| FeatureNames (names : list string)
| InputColumns (columns : list string)
| InputData (df : DataFrame)
| RawPrediction (y : float)
| ErrorTraceback (e : Py.exn).

(** What a handler does besides returning: it prints, it asks an encoder for
    a code, it hands a frame to the model. *)
Inductive event : Type :=
| Printed (o : output)
| Transform (which : encoder) (label : string)
| Predict (X : DataFrame).

(** A run of handler code: the events in order, then the value returned or
    the exception raised. *)
Definition Run (A : Type) : Type := (list event * (Py.exn + A))%type.

Definition ret {A : Type} (a : A) : Run A := ([], inr a).

Definition raise {A : Type} (e : Py.exn) : Run A := ([], inl e).

Definition emit (ev : event) : Run unit := ([ev], inr tt).

Definition bind {A B : Type} (c : Run A) (k : A -> Run B) : Run B :=
  match c with
  | (log, inl e) => (log, inl e)
  | (log, inr a) => let (log', r) := k a in ((log ++ log')%list, r)
  end.

(** [try: c  except Exception as e: handler(e)] *)
Definition try_except {A : Type} (c : Run A) (handler : Py.exn -> Run A)
  : Run A :=
  match c with
  | (log, inl e) => let (log', r) := handler e in ((log ++ log')%list, r)
  | (log, inr a) => (log, inr a)
  end.

Declare Scope run_scope.
Delimit Scope run_scope with run.
Notation "x <- c ;; k" := (bind c (fun x => k))
  (at level 61, c at next level, right associativity) : run_scope.
Notation "c ;; k" := (bind c (fun _ => k))
  (at level 61, right associativity) : run_scope.
Local Open Scope run_scope.

Definition print (o : output) : Run unit := emit (Printed o).

(** ** Library calls *)

(** The code of a label: its position in the table that
    [LabelEncoder.transform] builds from [classes_] (a later entry replaces
    an earlier one with the same label). *)
Fixpoint map_to_integer (uniques : list string) (i : Z) (v : string)
  : option Z :=
  match uniques with
  | [] => None
  | u :: rest =>
      match map_to_integer rest (i + 1) v with
      | Some j => Some j
      | None => if String.eqb v u then Some i else None
      end
  end.

(** [le.transform([label])[0]] *)
Definition transform (env : Artifacts) (which : encoder) (label : string)
  : Run Z :=
  let le := match which with
            | StateEncoder => le_state env
            | GradeEncoder => le_grade env
            end in
  emit (Transform which label) ;;
  match map_to_integer (classes_ le) 0 label with
  | Some code => ret code
  | None => raise (raised_by env (UnseenLabel label))
  end.

(** The value of a column of a frame. *)
Fixpoint column (df : DataFrame) (name : string) : option cell :=
  match df with
  | [] => None
  | (n, v) :: rest => if String.eqb name n then Some v else column rest name
  end.

(** The columns of [df] named by [labels], in the order of [labels]. *)
Fixpoint select (df : DataFrame) (labels : list string) : option DataFrame :=
  match labels with
  | [] => Some []
  | l :: rest =>
      match column df l, select df rest with
      | Some v, Some r => Some ((l, v) :: r)
      | _, _ => None
      end
  end.

Definition missing (df : DataFrame) (labels : list string) : list string :=
  filter (fun l => match column df l with None => true | Some _ => false end)
         labels.

(** [df[labels]] for a list of labels: a [KeyError] when a label names no
    column. *)
Definition getitem (env : Artifacts) (df : DataFrame) (labels : list string)
  : Run DataFrame :=
  match select df labels with
  | Some X => ret X
  | None => raise (raised_by env (MissingColumns (missing df labels)))
  end.

(** [model.predict(X)[0]] *)
Definition model_predict (env : Artifacts) (X : DataFrame) : Run float :=
  match model env with
  | None => raise (raised_by env NoneHasNoPredict)
  | Some predict =>
      emit (Predict X) ;;
      match predict X with
      | inl e => raise e
      | inr y => ret y
      end
  end.

(** ** Responses *)

(** A value of a JSON object. *)
Inductive value : Type :=
| VStr (s : string)
| VInt (n : Z)
| VFloat (x : float)
| VBool (b : bool).

(** A Python [dict] with string keys, in insertion order. *)
Definition dict : Type := list (string * value).

Fixpoint get (d : dict) (key : string) : option value :=
  match d with
  | [] => None
  | (k, v) :: rest => if String.eqb key k then Some v else get rest key
  end.

Record YieldPredictionResponse : Type := {
  predicted_yield : float;
  input_parameters : dict;
  model_used : string;
  unit : string
}.

(** The body of a batch answer: [{"count": ..., "predictions": [...]}]. *)
Record BatchResponse : Type := {
  count : Z;
  predictions : list YieldPredictionResponse
}.

(** ** [GET /health] *)

Definition health_check (env : Artifacts) : dict :=
  [ ("status", VStr "healthy");
    ("model_loaded", VBool (match model env with Some _ => true | None => false end));
    ("available_states", VInt (Py.len (VALID_STATES env)));
    ("available_grades", VInt (Py.len (VALID_GRADES env))) ].

(** ** [GET /states] and [GET /grades] *)

Module States.
Record response : Type := { count : Z; states : list string }.
End States.

Module Grades.
Record response : Type := { count : Z; grades : list string }.
End Grades.

Definition get_available_states (env : Artifacts) : States.response :=
  {| States.count := Py.len (VALID_STATES env);
     States.states := Py.sorted (VALID_STATES env) |}.

Definition get_available_grades (env : Artifacts) : Grades.response :=
  {| Grades.count := Py.len (VALID_GRADES env);
     Grades.grades := Py.sorted (VALID_GRADES env) |}.

(** ** [POST /predict] *)

(** [is_wet = 1 if request.season == 'wet' else 0] *)
Definition is_wet_of (season : string) : Z :=
  if String.eqb season "wet" then 1 else 0.

(** [area_wet_interaction = request.area_ha * is_wet] *)
Definition interaction (area_ha : float) (is_wet : Z) : float :=
  (area_ha * Py.float_of_int is_wet)%float.

(** The frame as first built, column by column in the order written. *)
Definition input_frame (state_encoded is_wet year : Z) (area_ha : float)
    (grade_encoded : Z) (area_wet_interaction : float) : DataFrame :=
  [ ("state", Int state_encoded);
    ("is_wet", Int is_wet);
    ("year", Int year);
    ("area_ha", Float area_ha);
    ("quality_grade", Int grade_encoded);
    ("area_wet_interaction", Float area_wet_interaction) ].

Definition echo (request : YieldPredictionRequest) : dict :=
  [ ("state", VStr (state request));
    ("season", VStr (season request));
    ("year", VInt (year request));
    ("area_ha", VFloat (area_ha request));
    ("quality_grade", VStr (quality_grade request)) ].

Definition predict_yield (env : Artifacts) (request : YieldPredictionRequest)
  : Run YieldPredictionResponse :=
  try_except
    (state_encoded <- transform env StateEncoder (state request) ;;
     print (StateEncoded (state request) state_encoded) ;;
     let is_wet := is_wet_of (season request) in
     print (SeasonEncoded (season request) is_wet) ;;
     grade_encoded <- transform env GradeEncoder (quality_grade request) ;;
     print (GradeEncoded (quality_grade request) grade_encoded) ;;
     let area_wet_interaction := interaction (area_ha request) is_wet in
     let input_data :=
       input_frame state_encoded is_wet (year request) (area_ha request)
                   grade_encoded area_wet_interaction in
     print (FeatureNames (feature_names env)) ;;
     print (InputColumns (map fst input_data)) ;;
     print (InputData input_data) ;;
     input_data <- getitem env input_data (feature_names env) ;;
     prediction <- model_predict env input_data ;;
     print (RawPrediction prediction) ;;
     let predicted_yield := Py.round prediction 2 in
     ret {| predicted_yield := predicted_yield;
            input_parameters := echo request;
            model_used := "Random Forest";
            unit := "tonnes/hectare" |})
    (fun e =>
       print (ErrorTraceback e) ;;
       raise (Py.HTTPException 500 ("Prediction failed: " ++ Py.str_of_exn e))).

(** ** [POST /predict/batch] *)

(** The loop of the batch handler: [predictions] holds the results so far. *)
Fixpoint batch_loop (env : Artifacts) (requests : list YieldPredictionRequest)
    (predictions : list YieldPredictionResponse)
  : Run (list YieldPredictionResponse) :=
  match requests with
  | [] => ret predictions
  | request :: rest =>
      result <- predict_yield env request ;;
      batch_loop env rest (predictions ++ [result])%list
  end.

Definition predict_yield_batch (env : Artifacts)
    (requests : list YieldPredictionRequest) : Run BatchResponse :=
  try_except
    (predictions <- batch_loop env requests [] ;;
     ret {| count := Py.len predictions; predictions := predictions |})
    (fun e =>
       raise (Py.HTTPException 500
                ("Batch prediction failed: " ++ Py.str_of_exn e))).

(** ** The framework around the handlers *)

(** What the caller receives, before the framework writes it as JSON.  (The
    writing is not modelled: it fails on a float that is not finite, in a
    prediction or in the input repeated by a validation error.) *)
Inductive Response (A : Type) : Type :=
| OK (content : A)                                  (* 200 *)
| UnprocessableEntity (detail : list ErrorDetail)   (* 422 *)
| HTTPError (status_code : Z) (detail : string)     (* a raised HTTPException *)
| InternalServerError.                              (* any other exception *)

Arguments OK {A} content.
Arguments UnprocessableEntity {A} detail.
Arguments HTTPError {A} status_code detail.
Arguments InternalServerError {A}.

Definition respond {A : Type} (r : Run A) : list event * Response A :=
  match r with
  | (log, inr a) => (log, OK a)
  | (log, inl (Py.HTTPException status_code detail)) =>
      (log, HTTPError status_code detail)
  | (log, inl (Py.Exception _ _)) => (log, InternalServerError)
  end.

Definition at_loc (prefix : list loc_item) (e : ErrorDetail) : ErrorDetail :=
  {| loc := (prefix ++ loc e)%list; type_ := type_ e |}.

(** The body is validated first; the handler runs only on a request that was
    built. *)
Definition post_predict (env : Artifacts) (body : RequestBody)
  : list event * Response YieldPredictionResponse :=
  match validate env body with
  | inl errors => ([], UnprocessableEntity (map (at_loc [Key "body"]) errors))
  | inr request => respond (predict_yield env request)
  end.

(** Validation of a list body: the errors of every item, each under its
    index, and the requests that were built. *)
Fixpoint validate_list (env : Artifacts) (i : nat) (bodies : list RequestBody)
  : list ErrorDetail * list YieldPredictionRequest :=
  match bodies with
  | [] => ([], [])
  | body :: rest =>
      let (errors, requests) := validate_list env (S i) rest in
      match validate env body with
      | inl es => ((map (at_loc [Index i]) es ++ errors)%list, requests)
      | inr request => (errors, request :: requests)
      end
  end.

Definition post_predict_batch (env : Artifacts) (bodies : list RequestBody)
  : list event * Response BatchResponse :=
  match validate_list env 0 bodies with
  | ([], requests) => respond (predict_yield_batch env requests)
  | (errors, _) =>
      ([], UnprocessableEntity (map (at_loc [Key "body"]) errors))
  end.

(** The frames handed to the model during a run. *)
Fixpoint predict_calls (log : list event) : list DataFrame :=
  match log with
  | [] => []
  | Predict X :: rest => X :: predict_calls rest
  | _ :: rest => predict_calls rest
  end.

(** The encoder look-ups made during a run. *)
Fixpoint transform_calls (log : list event) : list (encoder * string) :=
  match log with
  | [] => []
  | Transform which label :: rest => (which, label) :: transform_calls rest
  | _ :: rest => transform_calls rest
  end.

(* ===================================================================== *)
(** * Definitions used to state the properties *)
(* ===================================================================== *)

(** The column names of the frame as first built. *)
Definition input_columns : list string :=
  ["state"; "is_wet"; "year"; "area_ha"; "quality_grade";
   "area_wet_interaction"].

(** The frame that [predict_yield] builds for a request, without the
    printing: [None] when an encoder does not know a label. *)
Definition assemble (env : Artifacts) (request : YieldPredictionRequest)
  : option DataFrame :=
  match map_to_integer (VALID_STATES env) 0 (state request),
        map_to_integer (VALID_GRADES env) 0 (quality_grade request) with
  | Some state_encoded, Some grade_encoded =>
      let is_wet := is_wet_of (season request) in
      Some (input_frame state_encoded is_wet (year request) (area_ha request)
              grade_encoded (interaction (area_ha request) is_wet))
  | _, _ => None
  end.

(** The request that a body becomes when every check passes. *)
Definition normalized (body : RequestBody) : YieldPredictionRequest :=
  {| state := body_state body;
     season := Py.lower (body_season body);
     year := body_year body;
     area_ha := body_area_ha body;
     quality_grade := body_quality_grade body |}.

(** A request sent again as a body. *)
Definition body_of (request : YieldPredictionRequest) : RequestBody :=
  {| body_state := state request;
     body_season := season request;
     body_year := year request;
     body_area_ha := area_ha request;
     body_quality_grade := quality_grade request |}.

(** The order of [str]: [a <= b]. *)
Definition str_le (a b : string) : Prop := String.leb a b = true.

(** The events of [predict_yield] up to the reordering of the frame. *)
Definition encoding_log (env : Artifacts) (request : YieldPredictionRequest)
    (state_encoded grade_encoded : Z) (df : DataFrame) : list event :=
  [ Transform StateEncoder (state request);
    Printed (StateEncoded (state request) state_encoded);
    Printed (SeasonEncoded (season request) (is_wet_of (season request)));
    Transform GradeEncoder (quality_grade request);
    Printed (GradeEncoded (quality_grade request) grade_encoded);
    Printed (FeatureNames (feature_names env));
    Printed (InputColumns (map fst df));
    Printed (InputData df) ].

(** The answer of [predict_yield] to an exception [e] caught after [log]. *)
Definition failed {A : Type} (log : list event) (e : Py.exn) : Run A :=
  ((log ++ [Printed (ErrorTraceback e)])%list,
   inl (Py.HTTPException 500 ("Prediction failed: " ++ Py.str_of_exn e))).

(** The cell of a frame under a name, with the name. *)
Definition value_of (df : DataFrame) (name : string) : string * cell :=
  (name, match column df name with Some v => v | None => Int 0 end).

(** The exact value of a finite float is within [(0, 1000]]: it is
    [m * 2^e] with a positive sign, compared without rounding. *)
Definition in_area_range (x : float) : Prop :=
  exists m e,
    Prim2SF x = S754_finite false m e /\
    (if (0 <=? e)%Z then Zpos m * 2 ^ e <= 1000
     else Zpos m <= 1000 * 2 ^ (- e)).

(** The four ways a validated request can end. *)
Inductive outcome (env : Artifacts) (request : YieldPredictionRequest)
    (df : DataFrame) (log : list event)
  : list event * Response YieldPredictionResponse -> Prop :=
| MissingColumn :
    select df (feature_names env) = None ->
    outcome env request df log
      (respond (failed log
         (raised_by env (MissingColumns (missing df (feature_names env))))))
| NoModel X :
    select df (feature_names env) = Some X ->
    model env = None ->
    outcome env request df log
      (respond (failed log (raised_by env NoneHasNoPredict)))
| ModelRaised X predict e :
    select df (feature_names env) = Some X ->
    model env = Some predict ->
    predict X = inl e ->
    outcome env request df log (respond (failed (log ++ [Predict X]) e))
| Predicted X predict y :
    select df (feature_names env) = Some X ->
    model env = Some predict ->
    predict X = inr y ->
    outcome env request df log
      ((log ++ [Predict X; Printed (RawPrediction y)])%list,
       OK {| predicted_yield := Py.round y 2;
             input_parameters := echo request;
             model_used := "Random Forest";
             unit := "tonnes/hectare" |}).

(** ** Artifacts for the examples *)

Module Example.

Definition states : list string :=
  ["Abia"; "Adamawa"; "Kaduna"; "Kano"; "Lagos"].

Definition grades : list string := ["A"; "B"; "C"].

(** The quotation mark. *)
Definition dquote : string := String (ascii_of_nat 34) EmptyString.

(** [repr] of a list of plain strings: [['a', 'b']]. *)
Definition repr_list (labels : list string) : string :=
  "[" ++ Py.join ", " (map (fun l => "'" ++ l ++ "'") labels) ++ "]".

(** The exceptions as scikit-learn, pandas and the interpreter word them;
    [str] of a [KeyError] is the [repr] of its message, and the wording of
    pandas is the one for a frame that has some of the requested columns. *)
Definition errors (f : library_failure) : Py.exn :=
  match f with
  | UnseenLabel label =>
      Py.Exception "ValueError"
        ("y contains previously unseen labels: '" ++ label ++ "'")
  | MissingColumns labels =>
      Py.Exception "KeyError"
        (dquote ++ repr_list labels ++ " not in index" ++ dquote)
  | NoneHasNoPredict =>
      Py.Exception "AttributeError"
        "'NoneType' object has no attribute 'predict'"
  end.

(** A stand-in for the forest: it reads the columns by position, as a
    model trained on the schema would. *)
Definition forest (X : DataFrame) : Py.exn + float :=
  match X with
  | [(_, Int _); (_, Float a); (_, Int _); (_, Int _); (_, Float i); (_, Int _)] =>
      inr (1.234 + a * 0.001 + i * 0.002)%float
  | _ => inl (Py.Exception "ValueError" "X has the wrong layout")
  end.

(** A model whose [predict] always raises. *)
Definition broken (X : DataFrame) : Py.exn + float :=
  inl (Py.Exception "ValueError" "boom").

Definition schema : list string :=
  ["year"; "area_ha"; "state"; "quality_grade"; "area_wet_interaction";
   "is_wet"].

Definition artifacts : Artifacts :=
  {| model := Some forest;
     le_state := {| classes_ := states |};
     le_grade := {| classes_ := grades |};
     feature_names := schema;
     raised_by := errors |}.

Definition broken_artifacts : Artifacts :=
  {| model := Some broken;
     le_state := {| classes_ := states |};
     le_grade := {| classes_ := grades |};
     feature_names := schema;
     raised_by := errors |}.

Definition kano_wet : RequestBody :=
  {| body_state := "Kano"; body_season := "WET"; body_year := 2023;
     body_area_ha := 5%float; body_quality_grade := "A" |}.

Definition lagos_dry : RequestBody :=
  {| body_state := "Lagos"; body_season := "dry"; body_year := 2020;
     body_area_ha := 12.5%float; body_quality_grade := "B" |}.

Definition unknown_state : RequestBody :=
  {| body_state := "kano"; body_season := "wet"; body_year := 2023;
     body_area_ha := 5%float; body_quality_grade := "A" |}.

Definition year_too_late : RequestBody :=
  {| body_state := "Kano"; body_season := "wet"; body_year := 2031;
     body_area_ha := 5%float; body_quality_grade := "A" |}.

End Example.

(* ===================================================================== *)
(** * Python values: examples and facts *)
(* ===================================================================== *)

Example str_of_int_neg : Py.str_of_int (-3) = "-3".
Proof. reflexivity. Qed.

Example str_of_int_27 : Py.str_of_int 27 = "27".
Proof. reflexivity. Qed.

Example join_three : Py.join ", " ["Abia"; "Kano"; "Lagos"] = "Abia, Kano, Lagos".
Proof. reflexivity. Qed.

Example lower_mixed : Py.lower "WeT" = "wet".
Proof. reflexivity. Qed.

Example float_of_int_1 : Py.float_of_int 1 = 1%float.
Proof. vm_compute. reflexivity. Qed.

Example float_of_int_0 : Py.float_of_int 0 = 0%float.
Proof. vm_compute. reflexivity. Qed.

Example round_pi : Py.round 3.14159%float 2 = 3.14%float.
Proof. vm_compute. reflexivity. Qed.

Example round_tie_even : Py.round 0.125%float 2 = 0.12%float.
Proof. vm_compute. reflexivity. Qed.

Example round_tie_up : Py.round 0.375%float 2 = 0.38%float.
Proof. vm_compute. reflexivity. Qed.

Example round_below_tie : Py.round 2.675%float 2 = 2.67%float.
Proof. vm_compute. reflexivity. Qed.

Example round_negative : Py.round (-1.005)%float 2 = (-1)%float.
Proof. vm_compute. reflexivity. Qed.

Example round_large : Py.round 1e300%float 2 = 1e300%float.
Proof. vm_compute. reflexivity. Qed.

Example round_small_negative : Py.round (-0.001)%float 2 = (-0)%float.
Proof. vm_compute. reflexivity. Qed.

Lemma str_in_In (v : string) (xs : list string) :
  Py.str_in v xs = true <-> In v xs.
Proof.
  unfold Py.str_in. rewrite existsb_exists. split.
  - intros (x & Hx & He). apply String.eqb_eq in He. now subst.
  - intros H. exists v. split; [assumption | apply String.eqb_refl].
Qed.

Lemma str_in_not_In (v : string) (xs : list string) :
  Py.str_in v xs = false <-> ~ In v xs.
Proof.
  rewrite <- str_in_In. destruct (Py.str_in v xs); split; intuition congruence.
Qed.

(** ** Multiplying a float by the wet flag *)

Section FloatFacts.

Let one_mantissa : positive := 4503599627370496.

Lemma canonical_fexp (m : positive) (e : Z) :
  canonical_mantissa prec emax m e = true ->
  fexp prec emax (Zpos (digits2_pos m) + e) = e.
Proof. unfold canonical_mantissa. intros H. now apply Z.eqb_eq in H. Qed.

Lemma digits2_pos_shift52 (m : positive) :
  Zpos (digits2_pos (one_mantissa * m)) = Zpos (digits2_pos m) + 52.
Proof.
  unfold one_mantissa. cbn [Pos.mul digits2_pos].
  repeat rewrite Pos2Z.inj_succ. lia.
Qed.

Lemma shr_shift52 (m : positive) :
  iter_pos shr_1 52
    {| shr_m := Zpos (one_mantissa * m); shr_r := false; shr_s := false |}
  = {| shr_m := Zpos m; shr_r := false; shr_s := false |}.
Proof. unfold one_mantissa. cbn [Pos.mul]. reflexivity. Qed.

(** The product of a finite binary64 number and [1.0] needs no rounding. *)
Lemma SFmul_one_finite (s : bool) (m : positive) (e : Z) :
  bounded prec emax m e = true ->
  SFmul prec emax (S754_finite s m e) (S754_finite false one_mantissa (-52))
  = S754_finite s m e.
Proof.
  intros Hb. unfold bounded in Hb. apply andb_true_iff in Hb.
  destruct Hb as [Hc He]. pose proof (canonical_fexp _ _ Hc) as Hf.
  unfold SFmul. rewrite xorb_false_r, Pos.mul_comm.
  unfold binary_round_aux. unfold shr_fexp at 1.
  change (Zdigits2 (Zpos (one_mantissa * m)))
    with (Zpos (digits2_pos (one_mantissa * m))).
  rewrite digits2_pos_shift52.
  replace (Zpos (digits2_pos m) + 52 + (e + -52))
    with (Zpos (digits2_pos m) + e) by lia.
  rewrite Hf. replace (e - (e + -52)) with 52 by lia.
  unfold shr, shr_record_of_loc. rewrite shr_shift52.
  cbn [shr_m loc_of_shr_record round_nearest_even].
  unfold shr_fexp. cbn [Zdigits2].
  replace (e + -52 + 52) with e by lia.
  rewrite Hf, Z.sub_diag. cbn [shr shr_record_of_loc shr_m].
  now rewrite He.
Qed.

(** [x * 1.0 == x] for every float, bit for bit. *)
Lemma float_mul_one (x : float) : (x * 1)%float = x.
Proof.
  apply Prim2SF_inj. rewrite mul_spec.
  change (Prim2SF 1%float) with (S754_finite false one_mantissa (-52)).
  pose proof (Prim2SF_valid x) as Hv.
  destruct (Prim2SF x) as [s|s| |s m e];
    cbn [SpecFloat.valid_binary] in Hv.
  - unfold SF64mul, SFmul. now rewrite xorb_false_r.
  - unfold SF64mul, SFmul. now rewrite xorb_false_r.
  - reflexivity.
  - now apply SFmul_one_finite.
Qed.

(** A float that passes [0.0 < x <= 1000.0] is finite and positive. *)
Lemma float_in_bounds_finite (x : float) :
  (0 <? x)%float = true -> (x <=? 1000)%float = true ->
  exists m e, Prim2SF x = S754_finite false m e.
Proof.
  rewrite ltb_spec, leb_spec.
  change (Prim2SF 0%float) with (S754_zero false).
  change (Prim2SF 1000%float) with (S754_finite false 8796093022208000 (-43)).
  destruct (Prim2SF x) as [s|s| |s m e]; unfold SFltb, SFleb;
    cbn [SFcompare]; try discriminate.
  - destruct s; discriminate.
  - destruct s; try discriminate. intros _ _. eauto.
Qed.

(** [x * 0.0 == 0.0] (the positive zero) for such a float. *)
Lemma float_mul_zero (x : float) :
  (0 <? x)%float = true -> (x <=? 1000)%float = true ->
  (x * 0)%float = 0%float.
Proof.
  intros H0 H1. destruct (float_in_bounds_finite x H0 H1) as (m & e & Hx).
  apply Prim2SF_inj. now rewrite mul_spec, Hx.
Qed.

End FloatFacts.

Lemma interaction_wet (a : float) : interaction a 1 = a.
Proof.
  unfold interaction. rewrite float_of_int_1. apply float_mul_one.
Qed.

Lemma interaction_dry (a : float) :
  (0 <? a)%float = true -> (a <=? 1000)%float = true ->
  interaction a 0 = 0%float.
Proof.
  intros H0 H1. unfold interaction. rewrite float_of_int_0.
  now apply float_mul_zero.
Qed.

(* ===================================================================== *)
(** * Validation *)
(* ===================================================================== *)

Lemma validate_season_spec (v : string) :
  validate_season v =
  if Py.str_in (Py.lower v) ["wet"; "dry"] then inr (Py.lower v)
  else inl "Season must be either 'wet' or 'dry'".
Proof.
  unfold validate_season. now destruct (Py.str_in (Py.lower v) _).
Qed.

Lemma season_in (s : string) :
  Py.str_in s ["wet"; "dry"] = true <-> s = "wet" \/ s = "dry".
Proof.
  rewrite str_in_In. cbn [In]. intuition congruence.
Qed.

Lemma check_year_inr (v w : Z) :
  check_year v = inr w <-> 2000 <= v <= 2030 /\ w = v.
Proof.
  unfold check_year.
  destruct (v <=? 2030)%Z eqn:E1; destruct (2000 <=? v)%Z eqn:E2; cbn [negb];
    rewrite ?Z.leb_le, ?Z.leb_gt in E1, E2;
    (split; [intros H; try discriminate | intros [Hr ->]; try lia]).
  - injection H as <-. lia.
  - reflexivity.
Qed.

Lemma check_area_ha_inr (v w : float) :
  check_area_ha v = inr w <->
  (0 <? v)%float = true /\ (v <=? 1000)%float = true /\ w = v.
Proof.
  unfold check_area_ha.
  destruct (v <=? 1000)%float, (0 <? v)%float; cbn [negb];
    split; intros H; try discriminate; try (now intuition discriminate).
  - injection H as <-. auto.
  - destruct H as (_ & _ & ->). reflexivity.
Qed.

(** A request is built exactly when the five checks pass, and it is then the
    body with its season in lower case. *)
Lemma validate_inr (env : Artifacts) (body : RequestBody)
    (request : YieldPredictionRequest) :
  validate env body = inr request <->
  In (body_state body) (VALID_STATES env) /\
  (Py.lower (body_season body) = "wet" \/ Py.lower (body_season body) = "dry") /\
  2000 <= body_year body <= 2030 /\
  (0 <? body_area_ha body)%float = true /\
  (body_area_ha body <=? 1000)%float = true /\
  In (body_quality_grade body) (VALID_GRADES env) /\
  request = normalized body.
Proof.
  unfold validate, validate_state, validate_grade.
  rewrite validate_season_spec.
  rewrite <- !str_in_In, <- season_in.
  destruct (Py.str_in (body_state body) (VALID_STATES env)) eqn:Es;
    destruct (Py.str_in (Py.lower (body_season body)) ["wet"; "dry"]) eqn:Ew;
    destruct (check_year (body_year body)) as [ey|y] eqn:Ey;
    destruct (check_area_ha (body_area_ha body)) as [ea|a] eqn:Ea;
    destruct (Py.str_in (body_quality_grade body) (VALID_GRADES env)) eqn:Eg;
    cbn [negb of_validator];
    try (split; [discriminate | intros (H1 & H2 & H3 & H4 & H5 & H6 & _)];
         try discriminate;
         try (assert (Hy : check_year (body_year body) = inr (body_year body))
                by (apply check_year_inr; auto); congruence);
         assert (Ha' : check_area_ha (body_area_ha body) = inr (body_area_ha body))
           by (apply check_area_ha_inr; auto); congruence).
  apply check_year_inr in Ey. destruct Ey as [Hy ->].
  apply check_area_ha_inr in Ea. destruct Ea as (H0 & H1 & ->).
  unfold normalized. split.
  - intros H. injection H as <-. auto 10.
  - intros (_ & _ & _ & _ & _ & _ & ->). reflexivity.
Qed.

Lemma validate_normalized (env : Artifacts) (body : RequestBody)
    (request : YieldPredictionRequest) :
  validate env body = inr request -> request = normalized body.
Proof. intros H. apply validate_inr in H. tauto. Qed.

(** A refused body comes with at least one error. *)
Lemma validate_inl_nonempty (env : Artifacts) (body : RequestBody)
    (errors : list ErrorDetail) :
  validate env body = inl errors -> errors <> [].
Proof.
  unfold validate.
  destruct (of_validator (validate_state env (body_state body)));
    destruct (of_validator (validate_season (body_season body)));
    destruct (check_year (body_year body));
    destruct (check_area_ha (body_area_ha body));
    destruct (of_validator (validate_grade env (body_quality_grade body)));
    intros H; try discriminate; injection H as <-; discriminate.
Qed.

(* ===================================================================== *)
(** * Frames *)
(* ===================================================================== *)

Lemma column_In (df : DataFrame) (name : string) (v : cell) :
  column df name = Some v -> In (name, v) df.
Proof.
  induction df as [|[n w] rest IH]; cbn [column]; [discriminate|].
  destruct (String.eqb_spec name n) as [->|Hne]; intros H.
  - injection H as ->. now left.
  - right. auto.
Qed.

Lemma In_column (df : DataFrame) (name : string) (v : cell) :
  NoDup (map fst df) -> In (name, v) df -> column df name = Some v.
Proof.
  induction df as [|[n w] rest IH]; cbn [column map fst]; [contradiction|].
  intros Hnd [Heq|Hin]; inversion Hnd as [|? ? Hn Hrest]; subst.
  - injection Heq as -> ->. now rewrite String.eqb_refl.
  - destruct (String.eqb_spec name n) as [->|Hne]; [|auto].
    exfalso. apply Hn. change n with (fst (n, v)). now apply in_map.
Qed.

Lemma column_None (df : DataFrame) (name : string) :
  column df name = None <-> ~ In name (map fst df).
Proof.
  induction df as [|[n w] rest IH]; cbn [column map fst In]; [tauto|].
  destruct (String.eqb_spec name n) as [->|Hne].
  - split; [discriminate | intros H; exfalso; auto].
  - rewrite IH. split; [intros H [Heq|Hin]; [congruence | auto] | tauto].
Qed.

(** Two frames with the same columns, in any order, give the same value for
    every name. *)
Lemma column_Permutation (df df' : DataFrame) (name : string) :
  NoDup (map fst df) -> Permutation df' df -> column df' name = column df name.
Proof.
  intros Hnd Hp.
  assert (Hnd' : NoDup (map fst df')).
  { eapply Permutation_NoDup; [|exact Hnd].
    apply Permutation_map. now apply Permutation_sym. }
  destruct (column df name) as [v|] eqn:E.
  - apply In_column; [assumption|].
    eapply Permutation_in; [apply Permutation_sym; exact Hp|].
    now apply column_In.
  - apply column_None. apply column_None in E. intros Hin. apply E.
    eapply Permutation_in; [|exact Hin]. now apply Permutation_map.
Qed.

(** The reordered frame has exactly the requested names, in their order. *)
Lemma select_names (df : DataFrame) (labels : list string) (X : DataFrame) :
  select df labels = Some X -> map fst X = labels.
Proof.
  revert X. induction labels as [|l rest IH]; cbn [select]; intros X H.
  - now injection H as <-.
  - destruct (column df l) as [v|]; [|discriminate].
    destruct (select df rest) as [r|]; [|discriminate].
    injection H as <-. cbn [map fst]. f_equal. now apply IH.
Qed.

(** Every value of the reordered frame is the value of that column. *)
Lemma select_values (df : DataFrame) (labels : list string) (X : DataFrame) :
  select df labels = Some X ->
  forall name v, In (name, v) X -> column df name = Some v.
Proof.
  revert X. induction labels as [|l rest IH]; cbn [select]; intros X H name v Hin.
  - injection H as <-. contradiction.
  - destruct (column df l) as [w|] eqn:E; [|discriminate].
    destruct (select df rest) as [r|]; [|discriminate].
    injection H as <-. destruct Hin as [Heq|Hin].
    + now injection Heq as <- <-.
    + eapply IH; eauto.
Qed.

Lemma select_ext (df df' : DataFrame) (labels : list string) :
  (forall name, column df' name = column df name) ->
  select df' labels = select df labels.
Proof.
  intros H. induction labels as [|l rest IH]; cbn [select]; [reflexivity|].
  now rewrite H, IH.
Qed.

(** Reordering does not depend on the order in which the frame was built. *)
Lemma select_Permutation (df df' : DataFrame) (labels : list string) :
  NoDup (map fst df) -> Permutation df' df ->
  select df' labels = select df labels.
Proof.
  intros Hnd Hp. apply select_ext. intros name.
  now apply column_Permutation.
Qed.

Lemma select_Some (df : DataFrame) (labels : list string) :
  incl labels (map fst df) -> exists X, select df labels = Some X.
Proof.
  induction labels as [|l rest IH]; cbn [select]; intros Hincl; [eauto|].
  destruct IH as (r & ->); [intros x Hx; apply Hincl; now right|].
  destruct (column df l) as [v|] eqn:E; [eauto|].
  apply column_None in E. exfalso. apply E, Hincl. now left.
Qed.

Lemma select_map (df : DataFrame) (labels : list string) (X : DataFrame) :
  select df labels = Some X -> X = map (value_of df) labels.
Proof.
  revert X. induction labels as [|l rest IH]; cbn [select]; intros X H.
  - now injection H as <-.
  - destruct (column df l) as [v|] eqn:E; [|discriminate].
    destruct (select df rest) as [r|]; [|discriminate].
    injection H as <-. cbn [map]. unfold value_of at 1. rewrite E.
    f_equal. now apply IH.
Qed.

Lemma frame_as_map (df : DataFrame) :
  NoDup (map fst df) -> map (value_of df) (map fst df) = df.
Proof.
  intros Hnd. rewrite map_map.
  transitivity (map (fun c : string * cell => c) df); [|apply map_id].
  apply map_ext_in.
  intros [n v] Hin. unfold value_of. cbn [fst].
  now rewrite (In_column df n v Hnd Hin).
Qed.

(** When the schema names each column once, the reordered frame holds the
    same cells as the frame that was built. *)
Lemma select_Permutation_schema (df : DataFrame) (labels : list string)
    (X : DataFrame) :
  NoDup (map fst df) -> Permutation labels (map fst df) ->
  select df labels = Some X -> Permutation X df.
Proof.
  intros Hnd Hp H. rewrite (select_map _ _ _ H).
  rewrite <- (frame_as_map df Hnd) at 2. now apply Permutation_map.
Qed.

Lemma input_frame_columns (sc w y : Z) (a : float) (gc : Z) (i : float) :
  map fst (input_frame sc w y a gc i) = input_columns.
Proof. reflexivity. Qed.

Lemma input_columns_NoDup : NoDup input_columns.
Proof.
  unfold input_columns.
  repeat (constructor; [cbn [In]; intuition discriminate|]). constructor.
Qed.

(* ===================================================================== *)
(** * The prediction handler *)
(* ===================================================================== *)

Lemma map_to_integer_known (uniques : list string) (i : Z) (v : string) :
  In v uniques -> exists code, map_to_integer uniques i v = Some code.
Proof.
  revert i. induction uniques as [|u rest IH]; intros i Hin; [contradiction|].
  cbn [map_to_integer].
  destruct (map_to_integer rest (i + 1) v) as [j|] eqn:E; [eauto|].
  destruct Hin as [->|Hin].
  - rewrite String.eqb_refl. eauto.
  - destruct (IH (i + 1) Hin) as (c & Hc). congruence.
Qed.

(** A code is a position of [classes_], and the label is there. *)
Lemma map_to_integer_nth (uniques : list string) :
  forall i v code,
    map_to_integer uniques i v = Some code ->
    i <= code < i + Z.of_nat (List.length uniques) /\
    nth_error uniques (Z.to_nat (code - i)) = Some v.
Proof.
  induction uniques as [|u rest IH]; intros i v code; cbn [map_to_integer];
    [discriminate|].
  cbn [List.length]. rewrite Nat2Z.inj_succ.
  destruct (map_to_integer rest (i + 1) v) as [j|] eqn:E.
  - intros H. injection H as <-. destruct (IH _ _ _ E) as [Hr Hn].
    split; [lia|].
    replace (Z.to_nat (j - i)) with (S (Z.to_nat (j - (i + 1)))) by lia.
    exact Hn.
  - destruct (String.eqb_spec v u) as [->|Hne]; [|discriminate].
    intros H. injection H as <-. split; [lia|].
    now rewrite Z.sub_diag.
Qed.

(** Both encoders know the labels of a validated request. *)
Lemma assemble_validated (env : Artifacts) (body : RequestBody)
    (request : YieldPredictionRequest) :
  validate env body = inr request ->
  exists state_encoded grade_encoded,
    map_to_integer (VALID_STATES env) 0 (state request) = Some state_encoded /\
    map_to_integer (VALID_GRADES env) 0 (quality_grade request)
      = Some grade_encoded /\
    assemble env request =
      Some (input_frame state_encoded (is_wet_of (season request))
              (year request) (area_ha request) grade_encoded
              (interaction (area_ha request) (is_wet_of (season request)))).
Proof.
  intros H. apply validate_inr in H.
  destruct H as (Hs & _ & _ & _ & _ & Hg & ->). cbn [normalized state quality_grade].
  destruct (map_to_integer_known _ 0 _ Hs) as (sc & Hsc).
  destruct (map_to_integer_known _ 0 _ Hg) as (gc & Hgc).
  exists sc, gc. unfold assemble. cbn [normalized state quality_grade].
  rewrite Hsc, Hgc. auto.
Qed.

(** What [predict_yield] does once both labels are encoded: it reorders the
    frame, calls the model and answers, or reports the first failure. *)
Lemma predict_yield_run (env : Artifacts) (request : YieldPredictionRequest)
    (state_encoded grade_encoded : Z) :
  map_to_integer (VALID_STATES env) 0 (state request) = Some state_encoded ->
  map_to_integer (VALID_GRADES env) 0 (quality_grade request)
    = Some grade_encoded ->
  let df := input_frame state_encoded (is_wet_of (season request))
              (year request) (area_ha request) grade_encoded
              (interaction (area_ha request) (is_wet_of (season request))) in
  let log := encoding_log env request state_encoded grade_encoded df in
  predict_yield env request =
  match select df (feature_names env) with
  | None =>
      failed log (raised_by env (MissingColumns (missing df (feature_names env))))
  | Some X =>
      match model env with
      | None => failed log (raised_by env NoneHasNoPredict)
      | Some predict =>
          match predict X with
          | inl e => failed (log ++ [Predict X]) e
          | inr y =>
              ((log ++ [Predict X; Printed (RawPrediction y)])%list,
               inr {| predicted_yield := Py.round y 2;
                      input_parameters := echo request;
                      model_used := "Random Forest";
                      unit := "tonnes/hectare" |})
          end
      end
  end.
Proof.
  intros Hs Hg. unfold predict_yield, transform, getitem, model_predict.
  unfold VALID_STATES in Hs. unfold VALID_GRADES in Hg. rewrite Hs, Hg.
  unfold try_except, bind, print, emit, ret, raise, failed, encoding_log.
  cbn -[select input_frame interaction Py.round echo missing Py.str_of_exn
        String.append].
  destruct (select _ (feature_names env)) as [X|]; [|reflexivity].
  destruct (model env) as [p|]; [|reflexivity].
  destruct (p X) as [e|y]; reflexivity.
Qed.

Lemma predict_calls_app (l1 l2 : list event) :
  predict_calls (l1 ++ l2) = (predict_calls l1 ++ predict_calls l2)%list.
Proof.
  induction l1 as [|ev rest IH]; [reflexivity|].
  destruct ev; cbn [predict_calls app]; now rewrite ?IH.
Qed.

Lemma predict_calls_encoding_log (env : Artifacts)
    (request : YieldPredictionRequest) (sc gc : Z) (df : DataFrame) :
  predict_calls (encoding_log env request sc gc df) = [].
Proof. reflexivity. Qed.

Lemma post_predict_outcome (env : Artifacts) (body : RequestBody)
    (request : YieldPredictionRequest) :
  validate env body = inr request ->
  exists state_encoded grade_encoded df,
    assemble env request = Some df /\
    df = input_frame state_encoded (is_wet_of (season request))
           (year request) (area_ha request) grade_encoded
           (interaction (area_ha request) (is_wet_of (season request))) /\
    outcome env request df
      (encoding_log env request state_encoded grade_encoded df)
      (post_predict env body).
Proof.
  intros Hv.
  destruct (assemble_validated env body request Hv) as (sc & gc & Hs & Hg & Ha).
  exists sc, gc. eexists. split; [exact Ha|]. split; [reflexivity|].
  unfold post_predict. rewrite Hv.
  rewrite (predict_yield_run env request sc gc Hs Hg). cbv zeta.
  destruct (select _ (feature_names env)) as [X|] eqn:Esel;
    [|now apply MissingColumn].
  destruct (model env) as [p|] eqn:Em; [|now apply NoModel with X].
  destruct (p X) as [e|y] eqn:Ep.
  - now apply ModelRaised with p.
  - now apply Predicted with p.
Qed.

Lemma respond_failed {A : Type} (log : list event) (e : Py.exn) :
  respond (@failed A log e) =
  ((log ++ [Printed (ErrorTraceback e)])%list,
   HTTPError 500 ("Prediction failed: " ++ Py.str_of_exn e)).
Proof. reflexivity. Qed.

(** In every outcome the log starts with the encoding steps, and the model
    was handed the reordered frame and nothing else. *)
Lemma outcome_log (env : Artifacts) (request : YieldPredictionRequest)
    (df : DataFrame) (log : list event)
    (r : list event * Response YieldPredictionResponse) :
  outcome env request df log r ->
  predict_calls log = [] ->
  (exists tail, fst r = (log ++ tail)%list) /\
  (forall X, In X (predict_calls (fst r)) ->
     select df (feature_names env) = Some X) /\
  (forall predict, model env = Some predict ->
     forall X, select df (feature_names env) = Some X ->
     predict_calls (fst r) = [X]).
Proof.
  intros Ho Hlog.
  destruct Ho as [Hsel|X Hsel Hm|X p e Hsel Hm Hp|X p y Hsel Hm Hp];
    rewrite ?respond_failed; cbn [fst];
    rewrite ?predict_calls_app, ?Hlog; cbn [predict_calls app];
    (split; [rewrite <- ?app_assoc; eauto|]); split.
  - intros X [].
  - intros p _ X HX. congruence.
  - intros X' [].
  - intros p' Hp'. congruence.
  - intros X' [<-|[]]. exact Hsel.
  - intros p' _ X' HX'. congruence.
  - intros X' [<-|[]]. exact Hsel.
  - intros p' _ X' HX'. congruence.
Qed.

Lemma encoding_log_prints_frame (env : Artifacts)
    (request : YieldPredictionRequest) (sc gc : Z) (df : DataFrame)
    (tail : list event) :
  In (Printed (InputData df)) (encoding_log env request sc gc df ++ tail).
Proof. apply in_or_app. left. unfold encoding_log. cbn [In]. auto 10. Qed.

Lemma validated_season (env : Artifacts) (body : RequestBody)
    (request : YieldPredictionRequest) :
  validate env body = inr request ->
  season request = "wet" \/ season request = "dry".
Proof.
  intros H. apply validate_inr in H.
  destruct H as (_ & Hw & _ & _ & _ & _ & ->). exact Hw.
Qed.

Lemma validated_area (env : Artifacts) (body : RequestBody)
    (request : YieldPredictionRequest) :
  validate env body = inr request ->
  (0 <? area_ha request)%float = true /\
  (area_ha request <=? 1000)%float = true.
Proof.
  intros H. apply validate_inr in H.
  destruct H as (_ & _ & _ & H0 & H1 & _ & ->). auto.
Qed.

(* ===================================================================== *)
(** * The interaction term and the order of the features *)
(* ===================================================================== *)

(** C1.  For every validated request the handler builds a frame whose
    [area_wet_interaction] cell is [area_ha] times the wet flag, and a frame
    handed to the model carries no other value under that name: the term is
    [0.0] when the season is ["dry"], whatever the area, and it is [area_ha]
    itself when the season is ["wet"]. *)
Theorem interaction_term_is_area_times_wet_flag (env : Artifacts)
    (body : RequestBody) (request : YieldPredictionRequest) :
  validate env body = inr request ->
  let term := interaction (area_ha request) (is_wet_of (season request)) in
  exists df,
    assemble env request = Some df /\
    In (Printed (InputData df)) (fst (post_predict env body)) /\
    column df "area_wet_interaction" = Some (Float term) /\
    (forall X v, In X (predict_calls (fst (post_predict env body))) ->
       In ("area_wet_interaction", v) X -> v = Float term) /\
    (season request = "dry" ->
       is_wet_of (season request) = 0 /\ term = 0%float) /\
    (season request = "wet" ->
       is_wet_of (season request) = 1 /\ term = area_ha request) /\
    (season request = "wet" \/ season request = "dry").
Proof.
  intros Hv term.
  destruct (post_predict_outcome env body request Hv)
    as (sc & gc & df & Ha & Hdf & Ho).
  destruct (outcome_log _ _ _ _ _ Ho (predict_calls_encoding_log _ _ _ _ _))
    as ((tail & Hlog) & Hcalls & _).
  destruct (validated_area env body request Hv) as [H0 H1].
  exists df. split; [exact Ha|]. split.
  { rewrite Hlog. apply encoding_log_prints_frame. }
  assert (Hcol : column df "area_wet_interaction" = Some (Float term))
    by (rewrite Hdf; reflexivity).
  split; [exact Hcol|]. split.
  { intros X v HX Hin. apply Hcalls in HX.
    pose proof (select_values _ _ _ HX _ _ Hin) as Hc. congruence. }
  split; [|split].
  - intros Hdry. unfold term. rewrite Hdry.
    change (is_wet_of "dry") with 0. split; [reflexivity|].
    now apply interaction_dry.
  - intros Hwet. unfold term. rewrite Hwet.
    change (is_wet_of "wet") with 1. split; [reflexivity|].
    apply interaction_wet.
  - exact (validated_season env body request Hv).
Qed.

(** A dry-season request of 12.5 ha: the term is [0.0]. *)
Lemma interaction_term_dry_witness :
  exists df,
    assemble Example.artifacts (normalized Example.lagos_dry) = Some df /\
    column df "area_wet_interaction" = Some (Float 0%float).
Proof.
  destruct (interaction_term_is_area_times_wet_flag Example.artifacts
              Example.lagos_dry (normalized Example.lagos_dry))
    as (df & Ha & _ & Hcol & _ & Hdry & _).
  - vm_compute. reflexivity.
  - exists df. split; [exact Ha|].
    destruct (Hdry eq_refl) as [_ Hterm].
    rewrite Hcol, Hterm. reflexivity.
Defined.

(** C2.  For every validated request, a frame handed to the model lists
    values under the names of [feature_names], in that order, and the value
    under each name is the one of the request: under [state] and
    [quality_grade] the codes of the body's labels, under [is_wet] 1 for the
    season ["wet"] and 0 otherwise, under [year] and [area_ha] the body's
    year and area, under [area_wet_interaction] the area times the flag.  It
    is the same frame whatever the order in which the six columns were first
    put together; when the schema is a reordering of the six columns and a
    model is loaded, the model is called once, with exactly these six
    values. *)
Theorem feature_vector_follows_schema (env : Artifacts) (body : RequestBody)
    (request : YieldPredictionRequest) :
  validate env body = inr request ->
  exists state_encoded grade_encoded,
    0 <= state_encoded /\
    nth_error (classes_ (le_state env)) (Z.to_nat state_encoded)
      = Some (body_state body) /\
    0 <= grade_encoded /\
    nth_error (classes_ (le_grade env)) (Z.to_nat grade_encoded)
      = Some (body_quality_grade body) /\
    let is_wet :=
      if String.eqb (Py.lower (body_season body)) "wet" then 1 else 0 in
    let values :=
      [ ("state", Int state_encoded);
        ("is_wet", Int is_wet);
        ("year", Int (body_year body));
        ("area_ha", Float (body_area_ha body));
        ("quality_grade", Int grade_encoded);
        ("area_wet_interaction",
         Float (body_area_ha body * Py.float_of_int is_wet)%float) ] in
    In (Printed (InputData values)) (fst (post_predict env body)) /\
    (forall X, In X (predict_calls (fst (post_predict env body))) ->
       map fst X = feature_names env /\
       (forall name v, In (name, v) X -> In (name, v) values) /\
       (forall df', Permutation df' values ->
          select df' (feature_names env) = Some X)) /\
    (forall predict, model env = Some predict ->
       Permutation (feature_names env) input_columns ->
       exists X,
         predict_calls (fst (post_predict env body)) = [X] /\
         map fst X = feature_names env /\
         Permutation X values).
Proof.
  intros Hv.
  destruct (post_predict_outcome env body request Hv)
    as (sc & gc & df & Ha & _ & Ho).
  destruct (outcome_log _ _ _ _ _ Ho (predict_calls_encoding_log _ _ _ _ _))
    as ((tail & Hlog) & Hcalls & Hcalled).
  destruct (assemble_validated env body request Hv)
    as (sc' & gc' & Hs & Hg & Ha').
  assert (Hdf : df = input_frame sc' (is_wet_of (season request))
                       (year request) (area_ha request) gc'
                       (interaction (area_ha request)
                                    (is_wet_of (season request))))
    by congruence.
  clear Ha Ha'.
  destruct (map_to_integer_nth _ _ _ _ Hs) as [Hrs Hns].
  destruct (map_to_integer_nth _ _ _ _ Hg) as [Hrg Hng].
  rewrite Z.sub_0_r in Hns, Hng.
  pose proof (validate_normalized env body request Hv) as Hn.
  rewrite Hn in Hns, Hng, Hdf.
  cbn [normalized state season year area_ha quality_grade] in Hns, Hng, Hdf.
  unfold VALID_STATES in Hns. unfold VALID_GRADES in Hng.
  exists sc', gc'.
  split; [lia|]. split; [exact Hns|]. split; [lia|]. split; [exact Hng|].
  assert (Hcols : map fst df = input_columns)
    by (rewrite Hdf; apply input_frame_columns).
  assert (Hnd : NoDup (map fst df))
    by (rewrite Hcols; apply input_columns_NoDup).
  cbv zeta.
  match goal with
  | |- In (Printed (InputData ?values)) _ /\ _ =>
      assert (Hvalues : df = values) by (rewrite Hdf; reflexivity)
  end.
  rewrite <- Hvalues. clear Hdf Hvalues.
  split.
  { rewrite Hlog. apply encoding_log_prints_frame. }
  split.
  - intros X HX. apply Hcalls in HX. split; [|split].
    + now apply select_names with df.
    + intros name v Hin. apply column_In.
      now apply select_values with (feature_names env) X.
    + intros df' Hp. now rewrite (select_Permutation df df' _ Hnd Hp).
  - intros p Hm Hperm.
    destruct (select_Some df (feature_names env)) as (X & HX).
    { intros name Hin. rewrite Hcols.
      eapply Permutation_in; [exact Hperm | exact Hin]. }
    exists X. split; [now apply (Hcalled p Hm)|]. split.
    + now apply select_names with df.
    + apply select_Permutation_schema with (feature_names env);
        [exact Hnd | now rewrite Hcols | exact HX].
Qed.

Lemma example_schema_Permutation : Permutation Example.schema input_columns.
Proof.
  apply NoDup_Permutation.
  - unfold Example.schema.
    repeat (constructor; [cbn [In]; intuition discriminate|]). constructor.
  - apply input_columns_NoDup.
  - intros x. unfold Example.schema, input_columns. cbn [In]. tauto.
Qed.

(** With the schema [year, area_ha, state, quality_grade,
    area_wet_interaction, is_wet] the model receives the six values under
    these names, in this order: among them the year 2023, the area 5.0,
    the flag 1 and the interaction term 5.0 of the Kano request. *)
Lemma feature_vector_follows_schema_witness :
  exists X,
    predict_calls (fst (post_predict Example.artifacts Example.kano_wet)) = [X] /\
    map fst X = ["year"; "area_ha"; "state"; "quality_grade";
                 "area_wet_interaction"; "is_wet"] /\
    In ("year", Int 2023) X /\
    In ("area_ha", Float 5%float) X /\
    In ("is_wet", Int 1) X /\
    In ("area_wet_interaction", Float 5%float) X.
Proof.
  destruct (feature_vector_follows_schema Example.artifacts Example.kano_wet
              (normalized Example.kano_wet))
    as (sc & gc & _ & _ & _ & _ & _ & _ & Hcall).
  - vm_compute. reflexivity.
  - destruct (Hcall Example.forest eq_refl example_schema_Permutation)
      as (X & HX & Hnames & Hperm).
    apply Permutation_sym in Hperm.
    exists X. split; [exact HX|]. split; [exact Hnames|].
    repeat split; (eapply Permutation_in; [exact Hperm|]); cbn [In].
    + right. right. left. reflexivity.
    + right. right. right. left. reflexivity.
    + right. left. reflexivity.
    + do 5 right. left. vm_compute. reflexivity.
Defined.

(* ===================================================================== *)
(** * Refused requests *)
(* ===================================================================== *)

(** A body is either built into its normalized request or refused with the
    errors of its fields, in the order of the fields. *)
Lemma validate_cases (env : Artifacts) (body : RequestBody) :
  validate env body = inr (normalized body) \/
  validate env body =
    inl (errors_at "state" (of_validator (validate_state env (body_state body)))
         ++ errors_at "season" (of_validator (validate_season (body_season body)))
         ++ errors_at "year" (check_year (body_year body))
         ++ errors_at "area_ha" (check_area_ha (body_area_ha body))
         ++ errors_at "quality_grade"
              (of_validator (validate_grade env (body_quality_grade body))))%list.
Proof.
  destruct (validate env body) as [errors|request] eqn:E.
  - right. revert E. unfold validate.
    destruct (of_validator (validate_state env (body_state body)));
      destruct (of_validator (validate_season (body_season body)));
      destruct (check_year (body_year body));
      destruct (check_area_ha (body_area_ha body));
      destruct (of_validator (validate_grade env (body_quality_grade body)));
      intros H; try discriminate; now symmetry.
  - left. f_equal. now apply validate_normalized with env.
Qed.

(** A refused body never reaches the handler: nothing is printed, no encoder
    and no model is called. *)
Lemma post_predict_refused (env : Artifacts) (body : RequestBody)
    (errors : list ErrorDetail) :
  validate env body = inl errors ->
  post_predict env body =
  ([], UnprocessableEntity (map (at_loc [Key "body"]) errors)).
Proof. intros H. unfold post_predict. now rewrite H. Qed.

Lemma validate_list_errors (env : Artifacts) (bodies : list RequestBody) :
  forall i body errors,
    In body bodies -> validate env body = inl errors ->
    fst (validate_list env i bodies) <> [].
Proof.
  induction bodies as [|b rest IH]; intros i body errors Hin Hv; [contradiction|].
  cbn [validate_list].
  destruct (validate_list env (S i) rest) as [errs reqs] eqn:Erest.
  destruct Hin as [->|Hin].
  - rewrite Hv. cbn [fst]. pose proof (validate_inl_nonempty _ _ _ Hv) as Hne.
    destruct errors; [congruence | discriminate].
  - specialize (IH (S i) body errors Hin Hv). rewrite Erest in IH. cbn [fst] in IH.
    destruct (validate env b) as [es|r]; cbn [fst]; [|exact IH].
    intros Happ. apply app_eq_nil in Happ. tauto.
Qed.

Lemma post_predict_batch_refused (env : Artifacts)
    (bodies : list RequestBody) (body : RequestBody)
    (errors : list ErrorDetail) :
  In body bodies -> validate env body = inl errors ->
  exists detail,
    detail <> [] /\
    post_predict_batch env bodies = ([], UnprocessableEntity detail).
Proof.
  intros Hin Hv. pose proof (validate_list_errors env bodies 0 _ _ Hin Hv) as Hne.
  unfold post_predict_batch.
  destruct (validate_list env 0 bodies) as [[|e errs] reqs]; cbn [fst] in Hne;
    [congruence|].
  eexists. split; [|reflexivity]. discriminate.
Qed.

(** C3.  [validate_season] accepts a string exactly when its lower-case form
    is ["wet"] or ["dry"], and what it returns, and what the request then
    holds and the handler encodes, is that lower-case form (["WET"] becomes
    ["wet"]); any other string raises the [ValueError], the body is refused
    with an error at [season], and the handler does not run. *)
Theorem season_is_validated_and_normalized :
  (forall v, (exists s, validate_season v = inr s) <->
             (Py.lower v = "wet" \/ Py.lower v = "dry")) /\
  (forall v s, validate_season v = inr s -> s = Py.lower v) /\
  (forall v, ~ (Py.lower v = "wet" \/ Py.lower v = "dry") ->
             validate_season v = inl "Season must be either 'wet' or 'dry'") /\
  validate_season "WET" = inr "wet" /\
  (forall env body request,
     validate env body = inr request ->
     season request = Py.lower (body_season body) /\
     In (Printed (SeasonEncoded (Py.lower (body_season body))
                    (is_wet_of (Py.lower (body_season body)))))
        (fst (post_predict env body))) /\
  (forall env body,
     ~ (Py.lower (body_season body) = "wet" \/
        Py.lower (body_season body) = "dry") ->
     exists errors,
       validate env body = inl errors /\
       In {| loc := [Key "season"];
             type_ := value_error "Season must be either 'wet' or 'dry'" |}
          errors /\
       post_predict env body =
         ([], UnprocessableEntity (map (at_loc [Key "body"]) errors))).
Proof.
  assert (Hacc : forall v, Py.lower v = "wet" \/ Py.lower v = "dry" ->
                           validate_season v = inr (Py.lower v)).
  { intros v H. rewrite validate_season_spec.
    apply season_in in H. now rewrite H. }
  assert (Hrej : forall v, ~ (Py.lower v = "wet" \/ Py.lower v = "dry") ->
             validate_season v = inl "Season must be either 'wet' or 'dry'").
  { intros v H. rewrite validate_season_spec.
    destruct (Py.str_in (Py.lower v) ["wet"; "dry"]) eqn:E; [|reflexivity].
    apply season_in in E. contradiction. }
  split; [|split; [|split; [|split; [|split]]]].
  - intros v. split.
    + intros (s & Hs). rewrite validate_season_spec in Hs.
      destruct (Py.str_in (Py.lower v) ["wet"; "dry"]) eqn:E; [|discriminate].
      now apply season_in.
    + intros H. exists (Py.lower v). now apply Hacc.
  - intros v s Hs. rewrite validate_season_spec in Hs.
    destruct (Py.str_in (Py.lower v) ["wet"; "dry"]); [|discriminate].
    now injection Hs as <-.
  - exact Hrej.
  - reflexivity.
  - intros env body request Hv.
    pose proof (validate_normalized env body request Hv) as Hn.
    split; [now rewrite Hn|].
    destruct (post_predict_outcome env body request Hv)
      as (sc & gc & df & _ & _ & Ho).
    destruct (outcome_log _ _ _ _ _ Ho (predict_calls_encoding_log _ _ _ _ _))
      as ((tail & Hlog) & _ & _).
    rewrite Hlog. apply in_or_app. left. rewrite Hn.
    unfold encoding_log. cbn [In normalized season]. auto.
  - intros env body Hbad.
    destruct (validate_cases env body) as [Hok|Herr].
    + apply validate_inr in Hok. tauto.
    + eexists. split; [exact Herr|]. split.
      * rewrite (Hrej _ Hbad). cbn [of_validator errors_at].
        apply in_or_app. right. now left.
      * now apply post_predict_refused.
Qed.

(** C4.  A state label that is not one of [VALID_STATES] (compared as it is,
    so ["kano"] is not ["Kano"]) is refused with the [ValueError] of
    [validate_state], whose message lists known states; the body is answered
    with the validation errors and nothing of the handler runs, neither an
    encoder nor the model, also when the body is an item of a batch. *)
Theorem unknown_state_is_refused_before_encoding (env : Artifacts)
    (body : RequestBody) :
  ~ In (body_state body) (VALID_STATES env) ->
  exists errors,
    validate_state env (body_state body)
      = inl ("State '" ++ body_state body
             ++ "' not recognized. Available states: "
             ++ Py.join ", " (firstn 10 (VALID_STATES env))
             ++ "... (and "
             ++ Py.str_of_int (Z.of_nat (List.length (VALID_STATES env)) - 10)
             ++ " more)") /\
    validate env body = inl errors /\
    In {| loc := [Key "state"];
          type_ := value_error (state_message env (body_state body)) |}
       errors /\
    post_predict env body =
      ([], UnprocessableEntity (map (at_loc [Key "body"]) errors)) /\
    transform_calls (fst (post_predict env body)) = [] /\
    predict_calls (fst (post_predict env body)) = [] /\
    (forall bodies, In body bodies ->
       exists detail,
         post_predict_batch env bodies = ([], UnprocessableEntity detail)).
Proof.
  intros Hunknown.
  assert (Hvs : validate_state env (body_state body)
                = inl (state_message env (body_state body))).
  { unfold validate_state. apply str_in_not_In in Hunknown.
    now rewrite Hunknown. }
  destruct (validate_cases env body) as [Hok|Herr].
  { apply validate_inr in Hok. tauto. }
  eexists. split; [exact Hvs|]. split; [exact Herr|]. split.
  { rewrite Hvs. cbn [of_validator errors_at]. now left. }
  rewrite (post_predict_refused _ _ _ Herr).
  repeat split.
  intros bodies Hin.
  destruct (post_predict_batch_refused env bodies body _ Hin Herr)
    as (detail & _ & Hd).
  eauto.
Qed.

(** ["kano"] is not a known state of the example encoder. *)
Lemma unknown_state_witness :
  fst (post_predict Example.artifacts Example.unknown_state) = [] /\
  validate_state Example.artifacts "kano"
  = inl "State 'kano' not recognized. Available states: Abia, Adamawa, Kaduna, Kano, Lagos... (and -5 more)".
Proof.
  destruct (unknown_state_is_refused_before_encoding Example.artifacts
              Example.unknown_state)
    as (errors & Hmsg & _ & _ & Hpost & _).
  - cbn. intuition discriminate.
  - split; [now rewrite Hpost | exact Hmsg].
Defined.

(* ===================================================================== *)
(** * Answers *)
(* ===================================================================== *)

(** C5.  [/health] returns an object with four fields: the status, which
    is ["healthy"], [model_loaded], which tells whether a model object was
    loaded, and the two counts, which are the numbers of labels known to the
    state encoder and to the grade encoder.  (On the wire the counts are
    named [available_states] and [available_grades].) *)
Theorem health_check_reports_encoder_sizes (env : Artifacts) :
  map fst (health_check env)
  = ["status"; "model_loaded"; "available_states"; "available_grades"] /\
  get (health_check env) "status" = Some (VStr "healthy") /\
  get (health_check env) "model_loaded"
  = Some (VBool (match model env with Some _ => true | None => false end)) /\
  get (health_check env) "available_states"
  = Some (VInt (Z.of_nat (List.length (classes_ (le_state env))))) /\
  get (health_check env) "available_grades"
  = Some (VInt (Z.of_nat (List.length (classes_ (le_grade env))))).
Proof. repeat split. Qed.




(** C7.  For a validated request the answer is a success exactly when the
    frame can be reordered and the model returns a prediction [y] for it; the
    answer then holds [round(y, 2)] as [predicted_yield], the unit
    ["tonnes/hectare"], the model name ["Random Forest"], and as
    [input_parameters] the state, the lower-cased season, the year, the area
    and the grade of the body. *)
Theorem successful_prediction_response (env : Artifacts) (body : RequestBody)
    (request : YieldPredictionRequest) :
  validate env body = inr request ->
  forall content,
    snd (post_predict env body) = OK content <->
    exists df X predict y,
      assemble env request = Some df /\
      select df (feature_names env) = Some X /\
      model env = Some predict /\
      predict X = inr y /\
      content =
        {| predicted_yield := Py.round y 2;
           input_parameters :=
             [ ("state", VStr (body_state body));
               ("season", VStr (Py.lower (body_season body)));
               ("year", VInt (body_year body));
               ("area_ha", VFloat (body_area_ha body));
               ("quality_grade", VStr (body_quality_grade body)) ];
           model_used := "Random Forest";
           unit := "tonnes/hectare" |}.
Proof.
  intros Hv content.
  pose proof (validate_normalized env body request Hv) as Hn.
  destruct (post_predict_outcome env body request Hv)
    as (sc & gc & df & Ha & _ & Ho).
  rewrite Ha.
  assert (Hecho : echo request =
                  [ ("state", VStr (body_state body));
                    ("season", VStr (Py.lower (body_season body)));
                    ("year", VInt (body_year body));
                    ("area_ha", VFloat (body_area_ha body));
                    ("quality_grade", VStr (body_quality_grade body)) ])
    by (rewrite Hn; reflexivity).
  destruct Ho as [Hsel|X Hsel Hm|X p e Hsel Hm Hp|X p y Hsel Hm Hp];
    rewrite ?respond_failed; cbn [snd].
  - split; [discriminate|].
    intros (df' & X & p & y & Hdf & HX & _). congruence.
  - split; [discriminate|].
    intros (df' & X' & p & y & _ & _ & Hp & _). congruence.
  - split; [discriminate|].
    intros (df' & X' & p' & y & Hdf & HX & Hp' & Hy & _).
    injection Hdf as <-. congruence.
  - rewrite Hecho. split.
    + intros H. injection H as <-. exists df, X, p, y. auto.
    + intros (df' & X' & p' & y' & Hdf & HX & Hp' & Hy & ->).
      injection Hdf as <-.
      assert (X' = X) by congruence. subst X'.
      assert (p' = p) by congruence. subst p'.
      assert (y' = y) by congruence. subst y'. reflexivity.
Qed.

(** The example request for Kano, sent with season ["WET"]: the prediction
    1.2489999999999999 is answered as 1.25 and the season is echoed as
    ["wet"]. *)
Lemma successful_prediction_witness :
  snd (post_predict Example.artifacts Example.kano_wet) =
  OK {| predicted_yield := 1.25%float;
        input_parameters :=
          [ ("state", VStr "Kano"); ("season", VStr "wet");
            ("year", VInt 2023); ("area_ha", VFloat 5%float);
            ("quality_grade", VStr "A") ];
        model_used := "Random Forest";
        unit := "tonnes/hectare" |}.
Proof.
  apply (successful_prediction_response Example.artifacts Example.kano_wet
           (normalized Example.kano_wet)).
  - vm_compute. reflexivity.
  - eexists _, _, Example.forest, _.
    split; [vm_compute; reflexivity|].
    split; [vm_compute; reflexivity|].
    split; [reflexivity|].
    split; [vm_compute; reflexivity|].
    vm_compute. reflexivity.
Defined.

(* ===================================================================== *)
(** * Batches *)
(* ===================================================================== *)

(** [predict_yield] raises nothing but the [HTTPException] of its handler. *)
Lemma predict_yield_raises_http (env : Artifacts)
    (request : YieldPredictionRequest) (log : list event) (e : Py.exn) :
  predict_yield env request = (log, inl e) ->
  exists detail, e = Py.HTTPException 500 detail.
Proof.
  unfold predict_yield.
  match goal with |- context [try_except ?c _] => destruct c as [l [e'|a]] end;
    unfold try_except, bind, print, emit, raise; cbn; intros H.
  - injection H as _ <-. eauto.
  - discriminate.
Qed.

Lemma snd_bind_inr {A B : Type} (log : list event) (a : A) (k : A -> Run B) :
  snd (bind (log, inr a) k) = snd (k a).
Proof. unfold bind. now destruct (k a). Qed.

Lemma snd_bind_inl {A B : Type} (log : list event) (e : Py.exn)
    (k : A -> Run B) :
  snd (bind (log, inl e) k) = inl e.
Proof. reflexivity. Qed.

(** The loop returns the answers of all requests, after those it started
    with and in the order of the requests, or the exception of the first
    request that fails. *)
Lemma batch_loop_spec (env : Artifacts)
    (requests : list YieldPredictionRequest) :
  forall acc,
    (exists contents,
       Forall2 (fun r c => snd (predict_yield env r) = inr c) requests contents /\
       snd (batch_loop env requests acc) = inr (acc ++ contents)%list) \/
    (exists r e,
       In r requests /\
       snd (predict_yield env r) = inl e /\
       snd (batch_loop env requests acc) = inl e).
Proof.
  induction requests as [|r rest IH]; intros acc.
  - left. exists []. split; [constructor|]. cbn. now rewrite app_nil_r.
  - cbn [batch_loop].
    destruct (predict_yield env r) as [log [e|c]] eqn:Er.
    + right. exists r, e. split; [now left|]. rewrite Er. auto.
    + rewrite snd_bind_inr.
      destruct (IH (acc ++ [c])%list)
        as [(contents & Hall & Hres)|(r' & e & Hin & He & Hres)].
      * left. exists (c :: contents). split.
        -- constructor; [now rewrite Er | exact Hall].
        -- rewrite Hres. now rewrite <- app_assoc.
      * right. exists r', e. split; [now right|]. auto.
Qed.

Lemma validate_list_nil (env : Artifacts) (bodies : list RequestBody) :
  forall i,
    fst (validate_list env i bodies) = [] ->
    (forall body, In body bodies -> validate env body = inr (normalized body)) /\
    snd (validate_list env i bodies) = map normalized bodies.
Proof.
  induction bodies as [|b rest IH]; intros i; cbn [validate_list].
  - intros _. split; [intros ? []|reflexivity].
  - destruct (validate_list env (S i) rest) as [errs reqs] eqn:Erest.
    specialize (IH (S i)). rewrite Erest in IH. cbn [fst snd] in IH.
    destruct (validate_cases env b) as [Hok|Herr].
    + rewrite Hok. cbn [fst snd]. intros Hnil.
      destruct (IH Hnil) as [Hall Hsnd]. split.
      * intros body [<-|Hin]; auto.
      * cbn [map]. now rewrite Hsnd.
    + rewrite Herr. cbn [fst]. intros Happ. apply app_eq_nil in Happ.
      destruct Happ as [Hmap _]. apply map_eq_nil in Hmap.
      exfalso. now apply (validate_inl_nonempty env b _ Herr).
Qed.

Lemma post_predict_OK (env : Artifacts) (body : RequestBody)
    (content : YieldPredictionResponse) :
  snd (post_predict env body) = OK content <->
  validate env body = inr (normalized body) /\
  snd (predict_yield env (normalized body)) = inr content.
Proof.
  unfold post_predict.
  destruct (validate_cases env body) as [Hok|Herr].
  - rewrite Hok.
    destruct (predict_yield env (normalized body)) as [log [[t m|c d]|c]];
      cbn [respond snd]; split; try discriminate;
      try (intros [_ H]; discriminate).
    + intros H. injection H as <-. auto.
    + intros [_ H]. injection H as <-. reflexivity.
  - rewrite Herr. cbn [snd]. split; [discriminate|]. intros [H _]. discriminate.
Qed.

Lemma snd_predict_yield_batch (env : Artifacts)
    (requests : list YieldPredictionRequest) :
  snd (predict_yield_batch env requests) =
  match snd (batch_loop env requests []) with
  | inr predictions =>
      inr {| count := Py.len predictions; predictions := predictions |}
  | inl e =>
      inl (Py.HTTPException 500
             ("Batch prediction failed: " ++ Py.str_of_exn e))
  end.
Proof.
  unfold predict_yield_batch.
  destruct (batch_loop env requests []) as [log [e|ps]]; reflexivity.
Qed.

Lemma snd_respond {A : Type} (r : Run A) :
  snd (respond r) =
  match snd r with
  | inr a => OK a
  | inl (Py.HTTPException status_code detail) => HTTPError status_code detail
  | inl (Py.Exception _ _) => InternalServerError
  end.
Proof. destruct r as [log [[t m|c d]|a]]; reflexivity. Qed.

(** The list is refused only because some item is. *)
Lemma validate_list_refused (env : Artifacts) (bodies : list RequestBody) :
  forall i,
    fst (validate_list env i bodies) <> [] ->
    exists body errors, In body bodies /\ validate env body = inl errors.
Proof.
  induction bodies as [|b rest IH]; intros i; cbn [validate_list].
  - intros H. now contradiction H.
  - destruct (validate_list env (S i) rest) as [errs reqs] eqn:Erest.
    destruct (validate env b) as [es|r] eqn:Eb.
    + intros _. exists b, es. split; [now left | exact Eb].
    + cbn [fst]. intros Hne. specialize (IH (S i)).
      rewrite Erest in IH. cbn [fst] in IH.
      destruct (IH Hne) as (body & errors & Hin & Hv).
      exists body, errors. split; [now right | exact Hv].
Qed.

(** C8.  A batch whose items would all succeed on [/predict] is answered
    with [count] equal to the number of items and with [predictions] holding,
    item by item and in the order of the input, the answer that [/predict]
    gives to that item; a batch with an item that would not succeed on
    [/predict] is answered with an error (the validation errors, or status
    500), which carries no prediction at all. *)
Theorem batch_is_all_or_nothing (env : Artifacts) (bodies : list RequestBody) :
  ((forall body, In body bodies ->
      exists content, snd (post_predict env body) = OK content) ->
   exists contents,
     Forall2 (fun body content => snd (post_predict env body) = OK content)
             bodies contents /\
     snd (post_predict_batch env bodies)
     = OK {| count := Z.of_nat (List.length bodies);
             predictions := contents |}) /\
  (forall body,
     In body bodies ->
     (forall content, snd (post_predict env body) <> OK content) ->
     (exists detail,
        snd (post_predict_batch env bodies) = UnprocessableEntity detail) \/
     (exists detail,
        snd (post_predict_batch env bodies) = HTTPError 500 detail)).
Proof.
  split.
  - intros Hall.
    assert (Hvalid : fst (validate_list env 0 bodies) = []).
    { destruct (fst (validate_list env 0 bodies)) as [|e errs] eqn:E;
        [reflexivity|]. exfalso.
      destruct (validate_list_refused env bodies 0)
        as (body & errors & Hin & Hv); [rewrite E; discriminate|].
      destruct (Hall body Hin) as (content & Hc).
      apply post_predict_OK in Hc. destruct Hc as [Hc _]. congruence. }
    destruct (validate_list_nil env bodies 0 Hvalid) as [_ Hreqs].
    unfold post_predict_batch.
    destruct (validate_list env 0 bodies) as [errs reqs].
    cbn [fst snd] in Hvalid, Hreqs. subst errs reqs.
    rewrite snd_respond, snd_predict_yield_batch.
    destruct (batch_loop_spec env (map normalized bodies) [])
      as [(contents & Hf & Hres)|(r & e & Hin & He & _)].
    + rewrite Hres. cbn [app]. exists contents. split.
      * clear Hres. revert contents Hf.
        induction bodies as [|b rest IH]; intros contents Hf;
          inversion Hf as [|? c ? cs Hc Hrest]; subst; constructor.
        -- apply post_predict_OK. split; [|exact Hc].
           destruct (Hall b (or_introl eq_refl)) as (c' & Hc').
           apply post_predict_OK in Hc'. tauto.
        -- apply IH; [|exact Hrest]. intros body Hin. apply Hall. now right.
      * unfold Py.len. apply Forall2_length in Hf.
        rewrite length_map in Hf. now rewrite Hf.
    + exfalso. apply in_map_iff in Hin. destruct Hin as (body & <- & Hin).
      destruct (Hall body Hin) as (content & Hc).
      apply post_predict_OK in Hc. destruct Hc as [_ Hc]. congruence.
  - intros body Hin Hfail.
    unfold post_predict_batch.
    destruct (validate_list env 0 bodies) as [[|err errs] reqs] eqn:E;
      [|left; cbn [snd]; eauto].
    right.
    destruct (validate_list_nil env bodies 0) as [Hall Hreqs];
      [now rewrite E|].
    rewrite E in Hreqs. cbn [snd] in Hreqs. subst reqs.
    rewrite snd_respond, snd_predict_yield_batch.
    destruct (batch_loop_spec env (map normalized bodies) [])
      as [(contents & Hf & _)|(r & e & _ & He & Hres)].
    + exfalso.
      assert (Hex : exists c, snd (predict_yield env (normalized body)) = inr c).
      { clear Hfail E Hall. revert contents Hf.
        induction bodies as [|b rest IH]; intros contents Hf; [contradiction|].
        inversion Hf as [|? c ? cs Hc Hrest]; subst.
        destruct Hin as [->|Hin]; [eauto|]. now apply (IH Hin cs). }
      destruct Hex as (c & Hc). apply (Hfail c).
      apply post_predict_OK. split; [now apply Hall | exact Hc].
    + rewrite Hres. eauto.
Qed.

(** Two valid items are answered in their order; with an unknown state
    between valid items nothing is predicted. *)
Lemma batch_is_all_or_nothing_witness :
  (exists first second,
     snd (post_predict Example.artifacts Example.kano_wet) = OK first /\
     snd (post_predict Example.artifacts Example.lagos_dry) = OK second /\
     snd (post_predict_batch Example.artifacts
            [Example.kano_wet; Example.lagos_dry])
     = OK {| count := 2; predictions := [first; second] |}) /\
  ((exists detail,
      snd (post_predict_batch Example.artifacts
             [Example.kano_wet; Example.unknown_state; Example.lagos_dry])
      = UnprocessableEntity detail) \/
   (exists detail,
      snd (post_predict_batch Example.artifacts
             [Example.kano_wet; Example.unknown_state; Example.lagos_dry])
      = HTTPError 500 detail)).
Proof.
  split.
  - destruct (batch_is_all_or_nothing Example.artifacts
                [Example.kano_wet; Example.lagos_dry]) as [Hall _].
    destruct Hall as (contents & Hf & Hres).
    + intros body [<-|[<-|[]]]; eexists; vm_compute; reflexivity.
    + inversion Hf as [|? first ? rest1 H1 Hrest1]; subst.
      inversion Hrest1 as [|? second ? rest2 H2 Hrest2]; subst.
      inversion Hrest2; subst.
      exists first, second. auto.
  - destruct (batch_is_all_or_nothing Example.artifacts
                [Example.kano_wet; Example.unknown_state; Example.lagos_dry])
      as [_ Hfail].
    apply (Hfail Example.unknown_state).
    + right. now left.
    + intros content H. vm_compute in H. discriminate.
Defined.

(* ===================================================================== *)
(** * The bounds of year and area *)
(* ===================================================================== *)

Lemma digits2_pos_size (m : positive) : digits2_pos m = Pos.size m.
Proof. induction m; cbn [digits2_pos Pos.size]; now rewrite ?IHm. Qed.

(** The mantissa of a binary64 number has at most 53 bits, and exactly 53
    above the smallest exponent. *)
Lemma mantissa_bounds (m : positive) (e : Z) :
  bounded prec emax m e = true ->
  Zpos m < 2 ^ 53 /\ (-1074 < e -> 2 ^ 52 <= Zpos m).
Proof.
  intros Hb. unfold bounded in Hb. apply andb_true_iff in Hb.
  destruct Hb as [Hc _]. apply canonical_fexp in Hc.
  unfold fexp, SpecFloat.emin, prec, emax in Hc.
  rewrite digits2_pos_size in Hc.
  pose proof (Pos.size_gt m) as Hgt. pose proof (Pos.size_le m) as Hle.
  apply Pos2Z.pos_lt_pos in Hgt. apply Pos2Z.pos_le_pos in Hle.
  rewrite Pos2Z.inj_pow in Hgt, Hle. rewrite Pos2Z.inj_xO in Hle.
  set (d := Zpos (Pos.size m)) in *.
  assert (Hd : 0 < d) by (unfold d; lia).
  split.
  - assert (d <= 53) by lia.
    apply Z.lt_le_trans with (2 ^ d); [exact Hgt|].
    apply Z.pow_le_mono_r; lia.
  - intros He. assert (d = 53) by lia.
    replace d with 53 in Hle by lia.
    change (2 ^ 53) with (2 * 2 ^ 52) in Hle. lia.
Qed.


Lemma Prim2SF_0 : Prim2SF 0%float = S754_zero false.
Proof. reflexivity. Qed.

Lemma Prim2SF_1000 :
  Prim2SF 1000%float = S754_finite false 8796093022208000 (-43).
Proof. reflexivity. Qed.

Lemma compare_cont_Eq (p q : positive) :
  Pos.compare_cont Eq p q = Z.compare (Zpos p) (Zpos q).
Proof. reflexivity. Qed.

(** The two comparisons of [Field(gt=0.0, le=1000.0)] hold exactly for the
    floats whose exact value is in [(0, 1000]]. *)
Lemma in_area_range_iff (x : float) :
  in_area_range x <->
  (0 <? x)%float = true /\ (x <=? 1000)%float = true.
Proof.
  rewrite ltb_spec, leb_spec, Prim2SF_0, Prim2SF_1000.
  unfold in_area_range.
  pose proof (Prim2SF_valid x) as Hv.
  destruct (Prim2SF x) as [s|s| |s m e].
  - split; [intros (m & e & H & _); discriminate | intros [H _]; discriminate].
  - split; [intros (m & e & H & _); discriminate|].
    destruct s; intros [H1 H2]; discriminate.
  - split; [intros (m & e & H & _); discriminate | intros [H _]; discriminate].
  - cbn [SpecFloat.valid_binary] in Hv.
    destruct (mantissa_bounds m e Hv) as [Hlt Hnorm]. clear Hv.
    unfold SFltb, SFleb. cbn [SFcompare].
    destruct s.
    { split; [intros (m' & e' & H & _); discriminate
             | intros [H _]; discriminate]. }
    rewrite compare_cont_Eq.
    assert (H53 : 2 ^ 53 = 9007199254740992) by reflexivity.
    assert (H52 : 2 ^ 52 = 4503599627370496) by reflexivity.
    assert (H44 : 2 ^ 44 = 17592186044416) by reflexivity.
    assert (H43 : 2 ^ 43 = 8796093022208) by reflexivity.
    assert (H42 : 2 ^ 42 = 4398046511104) by reflexivity.
    rewrite H53 in Hlt. rewrite H52 in Hnorm.
    split.
    + intros (m' & e' & Heq & Hval). injection Heq as <- <-.
      split; [reflexivity|].
      destruct (Z.compare_spec e (-43)) as [He|He|He].
      * subst e. replace (0 <=? -43)%Z with false in Hval by reflexivity.
        replace (- -43) with 43 in Hval by reflexivity. rewrite H43 in Hval.
        destruct (Z.compare_spec (Zpos m) 8796093022208000) as [Hm|Hm|Hm];
          [reflexivity | reflexivity | exfalso; lia].
      * reflexivity.
      * exfalso. assert (Hn : 4503599627370496 <= Zpos m) by (apply Hnorm; lia).
        destruct (Z.leb_spec 0 e) as [Hpos|Hneg].
        -- assert (H1 : 0 < 2 ^ e) by (apply Z.pow_pos_nonneg; lia).
           assert (H2 : Zpos m * 1 <= Zpos m * 2 ^ e)
             by (apply Z.mul_le_mono_nonneg_l; lia).
           lia.
        -- assert (H1 : 2 ^ (- e) <= 2 ^ 42) by (apply Z.pow_le_mono_r; lia).
           rewrite H42 in H1. lia.
    + intros [_ Hle]. exists m, e. split; [reflexivity|].
      destruct (Z.compare_spec e (-43)) as [He|He|He].
      * subst e. replace (0 <=? -43)%Z with false by reflexivity.
        replace (- -43) with 43 by reflexivity. rewrite H43.
        destruct (Z.compare_spec (Zpos m) 8796093022208000) as [Hm|Hm|Hm];
          [lia | lia | discriminate].
      * destruct (Z.leb_spec 0 e) as [Hpos|Hneg]; [lia|].
        assert (H1 : 2 ^ 44 <= 2 ^ (- e)) by (apply Z.pow_le_mono_r; lia).
        rewrite H44 in H1. lia.
      * discriminate.
Qed.

Lemma errors_at_loc {A : Type} (field : string) (r : error_type + A)
    (e : ErrorDetail) :
  In e (errors_at field r) -> loc e = [Key field] /\ exists t, r = inl t.
Proof.
  destruct r as [t|a]; cbn [errors_at In]; [|contradiction].
  intros [<-|[]]. cbn [loc]. eauto.
Qed.

(** C9.  A body whose year is outside [2000, 2030], or whose area is not a
    float with exact value in (0, 1000], is refused with an error at that
    field and the handler does not run; a year inside its range passes the
    check of the year, an area inside its range passes the check of the
    area, and neither field then appears among the errors of the body. *)
Theorem year_and_area_bounds (env : Artifacts) (body : RequestBody) :
  ((body_year body < 2000 \/ 2030 < body_year body \/
    ~ in_area_range (body_area_ha body)) ->
   exists errors e,
     validate env body = inl errors /\
     In e errors /\
     (loc e = [Key "year"] \/ loc e = [Key "area_ha"]) /\
     post_predict env body =
       ([], UnprocessableEntity (map (at_loc [Key "body"]) errors))) /\
  (2000 <= body_year body <= 2030 ->
   check_year (body_year body) = inr (body_year body)) /\
  (in_area_range (body_area_ha body) ->
   check_area_ha (body_area_ha body) = inr (body_area_ha body)) /\
  (2000 <= body_year body <= 2030 ->
   in_area_range (body_area_ha body) ->
   forall errors e,
     validate env body = inl errors -> In e errors ->
     loc e <> [Key "year"] /\ loc e <> [Key "area_ha"]).
Proof.
  assert (Hyear : 2000 <= body_year body <= 2030 ->
                  check_year (body_year body) = inr (body_year body)).
  { intros H. now apply check_year_inr. }
  assert (Harea : in_area_range (body_area_ha body) ->
                  check_area_ha (body_area_ha body) = inr (body_area_ha body)).
  { intros H. apply in_area_range_iff in H. apply check_area_ha_inr. tauto. }
  split; [|split; [exact Hyear | split; [exact Harea|]]].
  - intros Hout.
    destruct (validate_cases env body) as [Hok|Herr].
    { exfalso. apply validate_inr in Hok.
      destruct Hok as (_ & _ & Hy & H0 & H1 & _).
      destruct Hout as [Hy'|[Hy'|Ha]]; [lia | lia |].
      apply Ha, in_area_range_iff. auto. }
    assert (Hfield :
      (exists t, check_year (body_year body) = inl t) \/
      (exists t, check_area_ha (body_area_ha body) = inl t)).
    { destruct (check_year (body_year body)) as [t|y] eqn:Ey; [eauto|].
      destruct (check_area_ha (body_area_ha body)) as [t|a] eqn:Ea; [eauto|].
      exfalso. apply check_year_inr in Ey. apply check_area_ha_inr in Ea.
      destruct Hout as [Hy'|[Hy'|Ha]]; [lia | lia |].
      apply Ha, in_area_range_iff. tauto. }
    destruct Hfield as [(t & Ht)|(t & Ht)].
    + eexists. exists {| loc := [Key "year"]; type_ := t |}.
      split; [exact Herr|]. split; [|split; [now left|]].
      * rewrite Ht. cbn [errors_at]. apply in_or_app. right.
        apply in_or_app. right. apply in_or_app. left. now left.
      * now apply post_predict_refused.
    + eexists. exists {| loc := [Key "area_ha"]; type_ := t |}.
      split; [exact Herr|]. split; [|split; [now right|]].
      * rewrite Ht. cbn [errors_at]. apply in_or_app. right.
        apply in_or_app. right. apply in_or_app. right.
        apply in_or_app. left. now left.
      * now apply post_predict_refused.
  - intros Hy Ha errors e Hv Hin.
    destruct (validate_cases env body) as [Hok|Herr]; [congruence|].
    rewrite Herr in Hv. injection Hv as <-.
    rewrite (Hyear Hy), (Harea Ha) in Hin. cbn [errors_at app] in Hin.
    repeat (apply in_app_or in Hin; destruct Hin as [Hin|Hin]);
      apply errors_at_loc in Hin; destruct Hin as [-> _];
      split; discriminate.
Qed.

(** The year 2031 is refused; an area of 5 hectares passes its check. *)
Lemma year_and_area_bounds_witness :
  (exists errors,
     post_predict Example.artifacts Example.year_too_late =
       ([], UnprocessableEntity (map (at_loc [Key "body"]) errors))) /\
  check_area_ha 5%float = inr 5%float.
Proof.
  destruct (year_and_area_bounds Example.artifacts Example.year_too_late)
    as (Hout & _ & Harea & _).
  split.
  - destruct Hout as (errors & e & _ & _ & _ & Hpost).
    + right. left. reflexivity.
    + exists errors. exact Hpost.
  - apply Harea. exists 5629499534213120%positive, (-50).
    split; [vm_compute; reflexivity | vm_compute; discriminate].
Defined.

(* ===================================================================== *)
(** * The messages of the unknown-label errors *)
(* ===================================================================== *)

(** C10.  For an unknown state the message of [validate_state] always lists
    the first ten known states, at most, followed by ["... (and N more)"]
    with [N] the number of known states minus ten: with ten states or fewer
    it lists them all and [N] is zero or negative.  The message of
    [validate_grade] lists every known grade. *)
Theorem state_message_counts_from_ten (env : Artifacts) (v : string) :
  ~ In v (VALID_STATES env) ->
  validate_state env v
  = inl ("State '" ++ v ++ "' not recognized. Available states: "
         ++ Py.join ", " (firstn 10 (VALID_STATES env))
         ++ "... (and "
         ++ Py.str_of_int (Z.of_nat (List.length (VALID_STATES env)) - 10)
         ++ " more)") /\
  (List.length (firstn 10 (VALID_STATES env)) <= 10)%nat /\
  ((List.length (VALID_STATES env) <= 10)%nat ->
   firstn 10 (VALID_STATES env) = VALID_STATES env /\
   Z.of_nat (List.length (VALID_STATES env)) - 10 <= 0) /\
  (forall g, ~ In g (VALID_GRADES env) ->
     validate_grade env g
     = inl ("Quality grade '" ++ g ++ "' not recognized. Available grades: "
            ++ Py.join ", " (VALID_GRADES env))).
Proof.
  intros Hunknown. split; [|split; [|split]].
  - unfold validate_state. apply str_in_not_In in Hunknown.
    now rewrite Hunknown.
  - apply firstn_le_length.
  - intros Hlen. split; [now apply firstn_all2 | lia].
  - intros g Hg. unfold validate_grade. apply str_in_not_In in Hg.
    now rewrite Hg.
Qed.

(** With five known states the message announces ["-5 more"]. *)
Lemma state_message_witness :
  validate_state Example.artifacts "Kan"
  = inl "State 'Kan' not recognized. Available states: Abia, Adamawa, Kaduna, Kano, Lagos... (and -5 more)".
Proof.
  destruct (state_message_counts_from_ten Example.artifacts "Kan")
    as (Hmsg & _).
  - cbn. intuition discriminate.
  - exact Hmsg.
Defined.

(* ===================================================================== *)
(** * The lists of known labels *)
(* ===================================================================== *)

Lemma insort_Permutation (x : string) (xs : list string) :
  Permutation (Py.insort x xs) (x :: xs).
Proof.
  induction xs as [|y rest IH]; cbn [Py.insort]; [reflexivity|].
  destruct (String.leb x y); [reflexivity|].
  rewrite IH. apply perm_swap.
Qed.

Lemma sorted_Permutation (xs : list string) : Permutation (Py.sorted xs) xs.
Proof.
  induction xs as [|x rest IH]; cbn [Py.sorted fold_right]; [reflexivity|].
  fold (Py.sorted rest). rewrite insort_Permutation. now constructor.
Qed.

Lemma insort_HdRel (a x : string) (xs : list string) :
  str_le a x -> HdRel str_le a xs -> HdRel str_le a (Py.insort x xs).
Proof.
  intros Hax Hhd. destruct xs as [|y rest]; cbn [Py.insort].
  - now constructor.
  - destruct (String.leb x y); constructor; [assumption|].
    now inversion Hhd.
Qed.

Lemma insort_Sorted (x : string) (xs : list string) :
  Sorted str_le xs -> Sorted str_le (Py.insort x xs).
Proof.
  induction xs as [|y rest IH]; cbn [Py.insort]; intros Hs.
  - repeat constructor.
  - destruct (String.leb x y) eqn:E.
    + constructor; [assumption|]. now constructor.
    + inversion Hs as [|? ? Hrest Hhd]; subst. constructor; [now apply IH|].
      apply insort_HdRel; [|assumption].
      destruct (String.leb_total x y) as [H|H]; [congruence | exact H].
Qed.

Lemma sorted_Sorted (xs : list string) : Sorted str_le (Py.sorted xs).
Proof.
  induction xs as [|x rest IH]; cbn [Py.sorted fold_right]; [constructor|].
  now apply insort_Sorted.
Qed.

(** X1.  [/states] answers with the number of known states and with the
    known states in ascending order: the list holds the same labels as
    [VALID_STATES], each as often, so its length is the count, and a label
    is listed exactly when [validate_state] accepts it. *)
Theorem states_endpoint_lists_the_accepted_states (env : Artifacts) :
  let r := get_available_states env in
  Sorted str_le (States.states r) /\
  Permutation (States.states r) (classes_ (le_state env)) /\
  States.count r = Z.of_nat (List.length (States.states r)) /\
  (forall v, In v (States.states r) <-> validate_state env v = inr v).
Proof.
  cbn zeta. unfold get_available_states. cbn [States.states States.count].
  pose proof (sorted_Permutation (VALID_STATES env)) as Hp.
  split; [apply sorted_Sorted|]. split; [exact Hp|]. split.
  - unfold Py.len. now rewrite (Permutation_length Hp).
  - intros v. unfold validate_state.
    destruct (Py.str_in v (VALID_STATES env)) eqn:E; cbn [negb].
    + apply str_in_In in E. split; [reflexivity|]. intros _.
      eapply Permutation_in; [apply Permutation_sym; exact Hp | exact E].
    + apply str_in_not_In in E. split; [|discriminate].
      intros Hin. exfalso. apply E.
      eapply Permutation_in; [exact Hp | exact Hin].
Qed.

(** X2.  [/grades] answers with the number of known grades and with the
    known grades in ascending order: the list holds the same labels as
    [VALID_GRADES], each as often, so its length is the count, and a label
    is listed exactly when [validate_grade] accepts it. *)
Theorem grades_endpoint_lists_the_accepted_grades (env : Artifacts) :
  let r := get_available_grades env in
  Sorted str_le (Grades.grades r) /\
  Permutation (Grades.grades r) (classes_ (le_grade env)) /\
  Grades.count r = Z.of_nat (List.length (Grades.grades r)) /\
  (forall v, In v (Grades.grades r) <-> validate_grade env v = inr v).
Proof.
  cbn zeta. unfold get_available_grades. cbn [Grades.grades Grades.count].
  pose proof (sorted_Permutation (VALID_GRADES env)) as Hp.
  split; [apply sorted_Sorted|]. split; [exact Hp|]. split.
  - unfold Py.len. now rewrite (Permutation_length Hp).
  - intros v. unfold validate_grade.
    destruct (Py.str_in v (VALID_GRADES env)) eqn:E; cbn [negb].
    + apply str_in_In in E. split; [reflexivity|]. intros _.
      eapply Permutation_in; [apply Permutation_sym; exact Hp | exact E].
    + apply str_in_not_In in E. split; [|discriminate].
      intros Hin. exfalso. apply E.
      eapply Permutation_in; [exact Hp | exact Hin].
Qed.

Example sorted_states :
  Py.sorted ["Lagos"; "Abia"; "kano"; "Kano"; "Kaduna"]
  = ["Abia"; "Kaduna"; "Kano"; "Lagos"; "kano"].
Proof. reflexivity. Qed.

(** X3.  A quality grade that is not one of [VALID_GRADES] is refused with
    the [ValueError] of [validate_grade] at the field [quality_grade]; the
    handler does not run, so no encoder and no model is called, also when
    the body is an item of a batch. *)
Theorem unknown_grade_is_refused_before_encoding (env : Artifacts)
    (body : RequestBody) :
  ~ In (body_quality_grade body) (VALID_GRADES env) ->
  exists errors,
    validate env body = inl errors /\
    In {| loc := [Key "quality_grade"];
          type_ := value_error (grade_message env (body_quality_grade body)) |}
       errors /\
    post_predict env body =
      ([], UnprocessableEntity (map (at_loc [Key "body"]) errors)) /\
    (forall bodies, In body bodies ->
       exists detail,
         post_predict_batch env bodies = ([], UnprocessableEntity detail)).
Proof.
  intros Hunknown.
  assert (Hvg : validate_grade env (body_quality_grade body)
                = inl (grade_message env (body_quality_grade body))).
  { unfold validate_grade. apply str_in_not_In in Hunknown.
    now rewrite Hunknown. }
  destruct (validate_cases env body) as [Hok|Herr].
  { apply validate_inr in Hok. tauto. }
  eexists. split; [exact Herr|]. split.
  { rewrite Hvg. cbn [of_validator errors_at].
    do 4 (apply in_or_app; right). now left. }
  split; [now apply post_predict_refused|].
  intros bodies Hin.
  destruct (post_predict_batch_refused env bodies body _ Hin Herr)
    as (detail & _ & Hd).
  eauto.
Qed.

(** Grade ["D"] is unknown to the example encoder. *)
Lemma unknown_grade_witness :
  exists errors,
    post_predict Example.artifacts
      {| body_state := "Kano"; body_season := "wet"; body_year := 2023;
         body_area_ha := 5%float; body_quality_grade := "D" |}
    = ([], UnprocessableEntity (map (at_loc [Key "body"]) errors)).
Proof.
  destruct (unknown_grade_is_refused_before_encoding Example.artifacts
              {| body_state := "Kano"; body_season := "wet"; body_year := 2023;
                 body_area_ha := 5%float; body_quality_grade := "D" |})
    as (errors & _ & _ & Hpost & _).
  - cbn. intuition discriminate.
  - exists errors. exact Hpost.
Defined.

(* ===================================================================== *)
(** * The codes of the labels *)
(* ===================================================================== *)

(** X4.  For a validated request the [state] and [quality_grade] cells of
    the frame hold codes that decode to the labels of the request: the code
    is a position of [classes_] and the label at that position is the
    request's; a frame handed to the model carries these codes and no
    others under the two names. *)
Theorem encoded_labels_decode_to_the_request (env : Artifacts)
    (body : RequestBody) (request : YieldPredictionRequest) :
  validate env body = inr request ->
  exists df state_encoded grade_encoded,
    assemble env request = Some df /\
    column df "state" = Some (Int state_encoded) /\
    column df "quality_grade" = Some (Int grade_encoded) /\
    0 <= state_encoded < Z.of_nat (List.length (classes_ (le_state env))) /\
    nth_error (classes_ (le_state env)) (Z.to_nat state_encoded)
      = Some (state request) /\
    0 <= grade_encoded < Z.of_nat (List.length (classes_ (le_grade env))) /\
    nth_error (classes_ (le_grade env)) (Z.to_nat grade_encoded)
      = Some (quality_grade request) /\
    (forall X v, In X (predict_calls (fst (post_predict env body))) ->
       (In ("state", v) X -> v = Int state_encoded) /\
       (In ("quality_grade", v) X -> v = Int grade_encoded)).
Proof.
  intros Hv.
  destruct (post_predict_outcome env body request Hv)
    as (sc & gc & df & Ha & Hdf & Ho).
  destruct (outcome_log _ _ _ _ _ Ho (predict_calls_encoding_log _ _ _ _ _))
    as (_ & Hcalls & _).
  destruct (assemble_validated env body request Hv)
    as (sc' & gc' & Hs & Hg & Ha').
  assert (Hdf' : df = input_frame sc' (is_wet_of (season request))
                        (year request) (area_ha request) gc'
                        (interaction (area_ha request)
                                     (is_wet_of (season request))))
    by congruence.
  clear Hdf Ha'.
  destruct (map_to_integer_nth _ _ _ _ Hs) as [Hrs Hns].
  destruct (map_to_integer_nth _ _ _ _ Hg) as [Hrg Hng].
  rewrite Z.sub_0_r in Hns, Hng.
  assert (Hcs : column df "state" = Some (Int sc'))
    by (rewrite Hdf'; reflexivity).
  assert (Hcg : column df "quality_grade" = Some (Int gc'))
    by (rewrite Hdf'; reflexivity).
  exists df, sc', gc'. unfold VALID_STATES, VALID_GRADES in *.
  repeat (split; [first [assumption | lia]|]).
  intros X v HX. apply Hcalls in HX. split; intros Hin;
    pose proof (select_values _ _ _ HX _ _ Hin) as Hc; congruence.
Qed.

(** In the example encoder ["Kano"] is the label of code 3. *)
Lemma encoded_labels_witness :
  exists df,
    assemble Example.artifacts (normalized Example.kano_wet) = Some df /\
    column df "state" = Some (Int 3).
Proof.
  destruct (encoded_labels_decode_to_the_request Example.artifacts
              Example.kano_wet (normalized Example.kano_wet))
    as (df & sc & gc & Ha & Hcs & _).
  - vm_compute. reflexivity.
  - exists df. split; [exact Ha|].
    vm_compute in Ha. injection Ha as <-. reflexivity.
Defined.

(* ===================================================================== *)
(** * The season, whatever its case *)
(* ===================================================================== *)

Lemma lower_ascii_idempotent (c : ascii) :
  Py.lower_ascii (Py.lower_ascii c) = Py.lower_ascii c.
Proof.
  destruct c as [[] [] [] [] [] [] [] []]; reflexivity.
Qed.

Lemma lower_idempotent (s : string) : Py.lower (Py.lower s) = Py.lower s.
Proof.
  induction s as [|c rest IH]; cbn [Py.lower]; [reflexivity|].
  now rewrite lower_ascii_idempotent, IH.
Qed.

(** X5.  For a body that passes validation the spelling of the season does
    not matter: the same body sent with another spelling, equal once
    lower-cased, passes validation too, is built into the same request and
    gets the same answer, the server printing and computing the same. *)
Theorem season_case_does_not_matter (env : Artifacts) (body : RequestBody)
    (request : YieldPredictionRequest) (spelling : string) :
  validate env body = inr request ->
  Py.lower spelling = Py.lower (body_season body) ->
  validate env
    {| body_state := body_state body;
       body_season := spelling;
       body_year := body_year body;
       body_area_ha := body_area_ha body;
       body_quality_grade := body_quality_grade body |}
  = inr request /\
  post_predict env
    {| body_state := body_state body;
       body_season := spelling;
       body_year := body_year body;
       body_area_ha := body_area_ha body;
       body_quality_grade := body_quality_grade body |}
  = post_predict env body.
Proof.
  intros Hok Hl.
  assert (Hv : validate env
                 {| body_state := body_state body;
                    body_season := spelling;
                    body_year := body_year body;
                    body_area_ha := body_area_ha body;
                    body_quality_grade := body_quality_grade body |}
               = inr request).
  { rewrite <- Hok. unfold validate.
    cbn [body_state body_season body_year body_area_ha body_quality_grade].
    rewrite !validate_season_spec, Hl. reflexivity. }
  split; [exact Hv|]. unfold post_predict. now rewrite Hv, Hok.
Qed.

(** ["wEt"] and ["WET"] are the same season of the Kano request. *)
Lemma season_case_witness :
  post_predict Example.artifacts
    {| body_state := "Kano"; body_season := "wEt"; body_year := 2023;
       body_area_ha := 5%float; body_quality_grade := "A" |}
  = post_predict Example.artifacts Example.kano_wet.
Proof.
  destruct (season_case_does_not_matter Example.artifacts Example.kano_wet
              (normalized Example.kano_wet) "wEt") as [_ H].
  - vm_compute. reflexivity.
  - reflexivity.
  - exact H.
Defined.

(** X6.  Validation is idempotent: the fields of a validated request, sent
    again as a body, are accepted and give the same request, so the echo of
    an answer can be submitted again and is answered alike. *)
Theorem validated_request_validates_to_itself (env : Artifacts)
    (body : RequestBody) (request : YieldPredictionRequest) :
  validate env body = inr request ->
  validate env (body_of request) = inr request /\
  post_predict env (body_of request) = post_predict env body.
Proof.
  intros Hv.
  assert (Hagain : validate env (body_of request) = inr request).
  { pose proof Hv as Hv'. apply validate_inr in Hv'.
    destruct Hv' as (Hs & Hw & Hy & H0 & H1 & Hg & ->).
    apply validate_inr.
    cbn [body_of normalized body_state body_season body_year body_area_ha
         body_quality_grade state season year area_ha quality_grade].
    rewrite lower_idempotent. repeat (split; [assumption|]).
    unfold normalized, body_of.
    cbn [body_state body_season body_year body_area_ha
         body_quality_grade state season year area_ha quality_grade].
    now rewrite lower_idempotent. }
  split; [exact Hagain|]. unfold post_predict. now rewrite Hagain, Hv.
Qed.

(** The request built from the Kano body is accepted as it is. *)
Lemma validated_request_witness :
  validate Example.artifacts (body_of (normalized Example.kano_wet))
  = inr (normalized Example.kano_wet).
Proof.
  apply (validated_request_validates_to_itself Example.artifacts
           Example.kano_wet (normalized Example.kano_wet)).
  vm_compute. reflexivity.
Defined.

(* ===================================================================== *)
(** * Failures of the handlers *)
(* ===================================================================== *)

Lemma select_None (df : DataFrame) (labels : list string) (name : string) :
  In name labels -> column df name = None -> select df labels = None.
Proof.
  induction labels as [|l rest IH]; cbn [select]; [contradiction|].
  intros [->|Hin] Hc.
  - now rewrite Hc.
  - rewrite (IH Hin Hc). now destruct (column df l).
Qed.

(** X8.  When [feature_names] holds a name that is not a column of the frame
    built by the handler, every validated request is answered with status
    500: the reordering raises, the failure names that column, and the model
    is not called. *)
Theorem unknown_feature_name_fails_before_the_model (env : Artifacts)
    (body : RequestBody) (request : YieldPredictionRequest) (name : string) :
  validate env body = inr request ->
  In name (feature_names env) ->
  ~ In name input_columns ->
  exists df labels,
    assemble env request = Some df /\
    labels = missing df (feature_names env) /\
    In name labels /\
    snd (post_predict env body)
    = HTTPError 500
        ("Prediction failed: "
         ++ Py.str_of_exn (raised_by env (MissingColumns labels))) /\
    predict_calls (fst (post_predict env body)) = [].
Proof.
  intros Hv Hin Hnot.
  destruct (post_predict_outcome env body request Hv)
    as (sc & gc & df & Ha & Hdf & Ho).
  assert (Hcol : column df name = None).
  { apply column_None. rewrite Hdf, input_frame_columns. exact Hnot. }
  pose proof (select_None df _ name Hin Hcol) as Hsel.
  exists df, (missing df (feature_names env)).
  split; [exact Ha|]. split; [reflexivity|]. split.
  { unfold missing. apply filter_In. split; [exact Hin|]. now rewrite Hcol. }
  destruct Ho as [_|X HX _|X p e HX _ _|X p y HX _ _]; try congruence.
  rewrite respond_failed. cbn [fst snd]. split; [reflexivity|].
  rewrite predict_calls_app. reflexivity.
Qed.

(** A schema with the column [rainfall], which the handler never builds. *)
Lemma unknown_feature_name_witness :
  exists detail,
    snd (post_predict
           {| model := Some Example.forest;
              le_state := {| classes_ := Example.states |};
              le_grade := {| classes_ := Example.grades |};
              feature_names := ["year"; "rainfall"];
              raised_by := Example.errors |}
           Example.kano_wet)
    = HTTPError 500 detail.
Proof.
  destruct (unknown_feature_name_fails_before_the_model
              {| model := Some Example.forest;
                 le_state := {| classes_ := Example.states |};
                 le_grade := {| classes_ := Example.grades |};
                 feature_names := ["year"; "rainfall"];
                 raised_by := Example.errors |}
              Example.kano_wet (normalized Example.kano_wet) "rainfall")
    as (df & labels & _ & _ & _ & Hres & _).
  - vm_compute. reflexivity.
  - right. now left.
  - cbn. intuition discriminate.
  - eexists. exact Hres.
Defined.

(* ===================================================================== *)
(** * The run of a batch *)
(* ===================================================================== *)

Lemma bind_inr {A B : Type} (log : list event) (a : A) (k : A -> Run B) :
  bind (log, inr a) k = ((log ++ fst (k a))%list, snd (k a)).
Proof. unfold bind. now destruct (k a). Qed.

Lemma batch_loop_success (env : Artifacts)
    (requests : list YieldPredictionRequest) :
  forall contents acc,
    Forall2 (fun q c => snd (predict_yield env q) = inr c) requests contents ->
    batch_loop env requests acc
    = (flat_map (fun q => fst (predict_yield env q)) requests,
       inr (acc ++ contents)%list).
Proof.
  induction requests as [|q rest IH]; intros contents acc Hf;
    inversion Hf as [|? c ? cs Hc Hrest]; subst; cbn [batch_loop flat_map].
  - unfold ret. now rewrite app_nil_r.
  - destruct (predict_yield env q) as [log r] eqn:Eq. cbn [snd] in Hc. subst r.
    rewrite bind_inr, (IH cs _ Hrest). cbn [fst snd].
    now rewrite <- app_assoc.
Qed.

Lemma batch_loop_failure (env : Artifacts)
    (before : list YieldPredictionRequest) :
  forall contents acc failing after e,
    Forall2 (fun q c => snd (predict_yield env q) = inr c) before contents ->
    snd (predict_yield env failing) = inl e ->
    batch_loop env (before ++ failing :: after) acc
    = (flat_map (fun q => fst (predict_yield env q)) (before ++ [failing]),
       inl e).
Proof.
  induction before as [|q rest IH]; intros contents acc failing after e Hf He;
    inversion Hf as [|? c ? cs Hc Hrest]; subst;
    cbn [batch_loop flat_map app].
  - destruct (predict_yield env failing) as [log r]. cbn [snd] in He. subst r.
    cbn [bind fst]. now rewrite app_nil_r.
  - destruct (predict_yield env q) as [log r] eqn:Eq. cbn [snd] in Hc. subst r.
    rewrite bind_inr, (IH cs _ failing after e Hrest He). reflexivity.
Qed.

(** X9.  The batch handler stops at the first request that fails: the
    requests before it are predicted in order, the failing one runs, and
    nothing is printed, encoded or predicted for the requests after it; the
    handler raises an [HTTPException] with status 500 whose detail is
    ["Batch prediction failed: "] followed by the text of the first
    failure. *)
Theorem batch_stops_at_the_first_failure (env : Artifacts)
    (before after : list YieldPredictionRequest)
    (contents : list YieldPredictionResponse)
    (failing : YieldPredictionRequest) (e : Py.exn) :
  Forall2 (fun q c => snd (predict_yield env q) = inr c) before contents ->
  snd (predict_yield env failing) = inl e ->
  predict_yield_batch env (before ++ failing :: after)
  = (flat_map (fun q => fst (predict_yield env q)) (before ++ [failing]),
     inl (Py.HTTPException 500
            ("Batch prediction failed: " ++ Py.str_of_exn e))).
Proof.
  intros Hf He. unfold predict_yield_batch.
  rewrite (batch_loop_failure env before contents [] failing after e Hf He).
  cbn [bind try_except raise]. now rewrite app_nil_r.
Qed.

(** With a model that always raises, a batch of two stops after the first
    item: the model is called once. *)
Lemma batch_stops_witness :
  List.length
    (predict_calls
       (fst (predict_yield_batch Example.broken_artifacts
               [normalized Example.kano_wet; normalized Example.lagos_dry])))
  = 1%nat.
Proof.
  pose proof (batch_stops_at_the_first_failure Example.broken_artifacts
                [] [normalized Example.lagos_dry] []
                (normalized Example.kano_wet)
                (Py.HTTPException 500 "Prediction failed: boom")
                (Forall2_nil _)) as H.
  cbn [app] in H. rewrite H.
  - vm_compute. reflexivity.
  - vm_compute. reflexivity.
Defined.

(** X10.  When every request of a batch is predicted, the batch handler
    runs them one after the other in the order of the list: what it prints
    and the calls it makes are those of the single requests, in that order,
    and it returns their answers in that order with their number as
    [count]; an empty batch returns a count of 0 and no prediction. *)
Theorem batch_runs_the_requests_in_order (env : Artifacts)
    (requests : list YieldPredictionRequest)
    (contents : list YieldPredictionResponse) :
  Forall2 (fun q c => snd (predict_yield env q) = inr c) requests contents ->
  predict_yield_batch env requests
  = (flat_map (fun q => fst (predict_yield env q)) requests,
     inr {| count := Z.of_nat (List.length requests);
            predictions := contents |}) /\
  (requests = [] ->
   predict_yield_batch env requests
   = ([], inr {| count := 0; predictions := [] |})).
Proof.
  intros Hf. assert (Hrun : predict_yield_batch env requests
    = (flat_map (fun q => fst (predict_yield env q)) requests,
       inr {| count := Z.of_nat (List.length requests);
              predictions := contents |})).
  { unfold predict_yield_batch.
    rewrite (batch_loop_success env requests contents [] Hf).
    cbn [bind try_except ret app fst snd]. rewrite app_nil_r.
    unfold Py.len. now rewrite (Forall2_length Hf). }
  split; [exact Hrun|].
  intros ->. inversion Hf; subst. exact Hrun.
Qed.

(** The two example requests are predicted in the order given. *)
Lemma batch_runs_in_order_witness :
  predict_calls
    (fst (predict_yield_batch Example.artifacts
            [normalized Example.lagos_dry; normalized Example.kano_wet]))
  = (predict_calls (fst (predict_yield Example.artifacts
                           (normalized Example.lagos_dry)))
     ++ predict_calls (fst (predict_yield Example.artifacts
                              (normalized Example.kano_wet))))%list.
Proof.
  destruct (batch_runs_the_requests_in_order Example.artifacts
              [normalized Example.lagos_dry; normalized Example.kano_wet]
              [ {| predicted_yield := 1.25%float;
                   input_parameters := echo (normalized Example.lagos_dry);
                   model_used := "Random Forest"; unit := "tonnes/hectare" |};
                {| predicted_yield := 1.25%float;
                   input_parameters := echo (normalized Example.kano_wet);
                   model_used := "Random Forest"; unit := "tonnes/hectare" |} ])
    as [Hrun _].
  - repeat constructor; vm_compute; reflexivity.
  - rewrite Hrun. cbn [fst flat_map]. rewrite app_nil_r.
    apply predict_calls_app.
Defined.

(** X12.  [/health] and [/predict] agree on the model: when [/health]
    reports [model_loaded] as false, no request is answered with a
    prediction, and the model is called for none. *)
Theorem no_model_no_prediction (env : Artifacts) (body : RequestBody) :
  get (health_check env) "model_loaded" = Some (VBool false) ->
  (forall content, snd (post_predict env body) <> OK content) /\
  predict_calls (fst (post_predict env body)) = [].
Proof.
  intros Hh. assert (Hm : model env = None).
  { cbn in Hh. destruct (model env); [discriminate | reflexivity]. }
  destruct (validate_cases env body) as [Hok|Herr].
  - destruct (post_predict_outcome env body _ Hok)
      as (sc & gc & df & _ & _ & Ho).
    destruct Ho as [Hsel|X Hsel _|X p e _ Hp _|X p y _ Hp _];
      try congruence; rewrite respond_failed; cbn [fst snd];
      (split; [discriminate|]); now rewrite predict_calls_app.
  - rewrite (post_predict_refused _ _ _ Herr). cbn [fst snd].
    split; [discriminate | reflexivity].
Qed.

(** Without a model the Kano request reaches no model. *)
Lemma no_model_witness :
  predict_calls
    (fst (post_predict
            {| model := None;
               le_state := {| classes_ := Example.states |};
               le_grade := {| classes_ := Example.grades |};
               feature_names := Example.schema;
               raised_by := Example.errors |}
            Example.kano_wet)) = [].
Proof.
  destruct (no_model_no_prediction
              {| model := None;
                 le_state := {| classes_ := Example.states |};
                 le_grade := {| classes_ := Example.grades |};
                 feature_names := Example.schema;
                 raised_by := Example.errors |}
              Example.kano_wet eq_refl) as [_ H].
  exact H.
Defined.
